(** * SmallWM: the interaction model (XModel) and the X event dispatcher (XEvents)

    A shallow embedding of [x-model.cpp] and [x-events.cpp].  The XModel is
    embedded as a record with explicit state passing.  The dispatcher talks to
    three collaborators whose bodies live elsewhere (ClientModel, XData and
    FocusCycle): every query it makes is answered by an environment record,
    and every command it issues is appended to a log of calls. *)

From Stdlib Require Import ZArith QArith Qround.
From stdpp Require Import gmap strings list fin_maps.

Local Open Scope Z_scope.

(** ** X11 basics *)

(** X11's [Window] is an XID (unsigned long). *)
Abbreviation Window := N.

(** X11's [None], the null window. *)
Definition NoneWin : Window := 0%N.

(** [Dimension] is an [int]; arithmetic on it wraps to 32 signed bits. *)
Definition wrap_int (z : Z) : Z := (z + 2 ^ 31) mod 2 ^ 32 - 2 ^ 31.

Definition Dimension2D : Type := Z * Z.

(** ** x-model.cpp *)

(** An icon: the client it hides, its own window and its drawing context.
    Icons are never modified after they are built, so a non-null [Icon*] is
    represented by the record it points to, and the null pointer by [None]. *)
Record Icon := mkIcon {
  Icon_client : Window;
  Icon_icon : Window;
  Icon_gc : N
}.

#[global] Instance Icon_eq_dec : EqDecision Icon.
Proof. solve_decision. Defined.

Inductive MoveResizeState := MR_INVALID | MR_MOVE | MR_RESIZE.

#[global] Instance MoveResizeState_eq_dec : EqDecision MoveResizeState.
Proof. solve_decision. Defined.

Record MoveResize := mkMoveResize {
  mr_client : Window;
  mr_placeholder : Window;
  mr_state : MoveResizeState
}.

(** The two tables are [std::map<Window, Icon*>]: a key can be bound to the
    null pointer, which is what [operator[]] does to a missing key. *)
Record XModel := mkXModel {
  m_clients_to_icons : gmap N (option Icon);
  m_icon_windows_to_icons : gmap N (option Icon);
  m_moveresize : option MoveResize;
  m_pointer : Dimension2D
}.

Definition XModel_init : XModel := mkXModel ∅ ∅ None (0, 0).

(** [m[key]] of a [std::map<Window, Icon*>]: the value bound to the key, after
    binding a missing key to the null pointer. *)
Definition map_subscript (m : gmap N (option Icon)) (key : Window)
  : option Icon * gmap N (option Icon) :=
  match m !! key with
  | Some v => (v, m)
  | None => (None, <[key := None]> m)
  end.

Definition register_icon (icon : Icon) (s : XModel) : XModel :=
  mkXModel (<[Icon_client icon := Some icon]> (m_clients_to_icons s))
           (<[Icon_icon icon := Some icon]> (m_icon_windows_to_icons s))
           (m_moveresize s) (m_pointer s).

Definition unregister_icon (icon : Icon) (s : XModel) : XModel :=
  mkXModel (delete (Icon_client icon) (m_clients_to_icons s))
           (delete (Icon_icon icon) (m_icon_windows_to_icons s))
           (m_moveresize s) (m_pointer s).

Definition find_icon_from_client (client : Window) (s : XModel)
  : option Icon * XModel :=
  let '(r, m) := map_subscript (m_clients_to_icons s) client in
  (r, mkXModel m (m_icon_windows_to_icons s) (m_moveresize s) (m_pointer s)).

Definition find_icon_from_icon_window (icon_win : Window) (s : XModel)
  : option Icon * XModel :=
  let '(r, m) := map_subscript (m_icon_windows_to_icons s) icon_win in
  (r, mkXModel (m_clients_to_icons s) m (m_moveresize s) (m_pointer s)).

Definition enter_move (client placeholder : Window) (s : XModel) : XModel :=
  match m_moveresize s with
  | Some _ => s
  | None =>
      mkXModel (m_clients_to_icons s) (m_icon_windows_to_icons s)
               (Some (mkMoveResize client placeholder MR_MOVE)) (m_pointer s)
  end.

Definition enter_resize (client placeholder : Window) (s : XModel) : XModel :=
  match m_moveresize s with
  | Some _ => s
  | None =>
      mkXModel (m_clients_to_icons s) (m_icon_windows_to_icons s)
               (Some (mkMoveResize client placeholder MR_RESIZE)) (m_pointer s)
  end.

Definition get_move_resize_placeholder (s : XModel) : Window :=
  match m_moveresize s with
  | None => NoneWin
  | Some mr => mr_placeholder mr
  end.

Definition get_move_resize_client (s : XModel) : Window :=
  match m_moveresize s with
  | None => NoneWin
  | Some mr => mr_client mr
  end.

Definition get_move_resize_state (s : XModel) : MoveResizeState :=
  match m_moveresize s with
  | None => MR_INVALID
  | Some mr => mr_state mr
  end.

Definition exit_move_resize (s : XModel) : XModel :=
  match m_moveresize s with
  | None => s
  | Some _ =>
      mkXModel (m_clients_to_icons s) (m_icon_windows_to_icons s)
               None (m_pointer s)
  end.

(** Modelled from the spec: [XModel::update_pointer] is called by the motion
    handler but its body is not in x-model.cpp as given.  The spec has the
    handler "compute pointer delta since last sample": the call returns the
    difference to the stored sample and stores the new one. *)
Definition update_pointer (ptr_x ptr_y : Z) (s : XModel)
  : Dimension2D * XModel :=
  ((wrap_int (ptr_x - fst (m_pointer s)), wrap_int (ptr_y - snd (m_pointer s))),
   mkXModel (m_clients_to_icons s) (m_icon_windows_to_icons s)
            (m_moveresize s) (ptr_x, ptr_y)).

(** *** Sequences of calls on the icon tables *)

Inductive IconCall :=
| CallRegister (icon : Icon)
| CallUnregister (icon : Icon)
| CallFindFromClient (client : Window)
| CallFindFromIconWindow (icon_win : Window).

Definition run_icon_call (c : IconCall) (s : XModel) : XModel :=
  match c with
  | CallRegister i => register_icon i s
  | CallUnregister i => unregister_icon i s
  | CallFindFromClient w => snd (find_icon_from_client w s)
  | CallFindFromIconWindow w => snd (find_icon_from_icon_window w s)
  end.

Definition run_icon_calls (cs : list IconCall) (s : XModel) : XModel :=
  foldl (fun s c => run_icon_call c s) s cs.

(** The icon is what the lookup by its own client window returns. *)
Definition found_by_client (s : XModel) (i : Icon) : Prop :=
  fst (find_icon_from_client (Icon_client i) s) = Some i.

(** The icon is what the lookup by its own icon window returns. *)
Definition found_by_icon_window (s : XModel) (i : Icon) : Prop :=
  fst (find_icon_from_icon_window (Icon_icon i) s) = Some i.

Definition both_or_neither (s : XModel) : Prop :=
  ∀ i : Icon, found_by_client s i ↔ found_by_icon_window s i.

(** A table entry that does not stand in the way of [i]: the key is unbound,
    bound to the null pointer, or bound to [i] itself. *)
Definition entry_free_or_own (e : option (option Icon)) (i : Icon) : bool :=
  match e with
  | Some (Some j) => bool_decide (j = i)
  | _ => true
  end.

Definition keys_unshared (i : Icon) (s : XModel) : bool :=
  entry_free_or_own (m_clients_to_icons s !! Icon_client i) i
  && entry_free_or_own (m_icon_windows_to_icons s !! Icon_icon i) i.

Definition icon_call_ok (c : IconCall) (s : XModel) : bool :=
  match c with
  | CallRegister i | CallUnregister i => keys_unshared i s
  | _ => true
  end.

(** Every register/unregister of the sequence is made on an icon whose two
    keys are not held by another icon at that moment. *)
Fixpoint icon_calls_ok (cs : list IconCall) (s : XModel) : bool :=
  match cs with
  | [] => true
  | c :: cs' => icon_call_ok c s && icon_calls_ok cs' (run_icon_call c s)
  end.

(** Every icon bound in one table is bound under its own key there, and under
    its other key in the other table. *)
Definition tables_paired (s : XModel) : Prop :=
  (∀ w j, m_clients_to_icons s !! w = Some (Some j) →
          Icon_client j = w
          ∧ m_icon_windows_to_icons s !! Icon_icon j = Some (Some j))
  ∧ (∀ w j, m_icon_windows_to_icons s !! w = Some (Some j) →
            Icon_icon j = w
            ∧ m_clients_to_icons s !! Icon_client j = Some (Some j)).

(** ** Types shared with the collaborators *)

(** Xlib's [XWindowAttributes], as far as the dispatcher reads it. *)
Record XWindowAttributes := mkAttrs {
  attr_x : Z;
  attr_y : Z;
  attr_width : Z;
  attr_height : Z;
  attr_override_redirect : bool
}.

(** Xlib's [XWMHints], as far as the dispatcher reads it. *)
Record XWMHints := mkHints {
  hints_flags : Z;
  hints_initial_state : Z;
  hints_icon_pixmap : N
}.

(** Xutil.h *)
Definition StateHint : Z := 2.
Definition IconPixmapHint : Z := 4.
Definition IconicState : Z := 3.

(** X.h: the event type that [get_latest_event] is asked for. *)
Definition MotionNotify : Z := 6.

Record Box := mkBox {
  box_x : Z;
  box_y : Z;
  box_width : Z;
  box_height : Z
}.

(** Modelled from the spec: the [Desktop] class is declared outside these
    sources.  A client is on a numbered desktop, on the sticky "all desktops"
    pseudo-desktop or on the icon pseudo-desktop; the dispatcher also asks for
    the two pseudo-desktops that hold a client while it is moved or resized.
    Each [is_..._desktop] test recognises exactly one kind. *)
Inductive Desktop :=
| UserDesktop (n : N)
| AllDesktops
| IconDesktop
| MovingDesktop
| ResizingDesktop.

Definition is_all_desktop (d : Desktop) : bool :=
  match d with AllDesktops => true | _ => false end.
Definition is_icon_desktop (d : Desktop) : bool :=
  match d with IconDesktop => true | _ => false end.
Definition is_moving_desktop (d : Desktop) : bool :=
  match d with MovingDesktop => true | _ => false end.
Definition is_resizing_desktop (d : Desktop) : bool :=
  match d with ResizingDesktop => true | _ => false end.

Inductive InitialState := IS_VISIBLE | IS_HIDDEN.

Inductive ClientPosScale :=
| CPS_FLOATING | CPS_SPLIT_LEFT | CPS_SPLIT_RIGHT
| CPS_SPLIT_TOP | CPS_SPLIT_BOTTOM | CPS_MAX.

Inductive Direction := DIR_TOP | DIR_BOTTOM | DIR_LEFT | DIR_RIGHT.

Inductive HotkeyType :=
| HK_MOUSE
| HK_FOCUS
| HK_OTHER (** any other value: the [default:] branch of the key handler *).

Inductive KeyboardAction :=
| INVALID_ACTION
| CLIENT_NEXT_DESKTOP | CLIENT_PREV_DESKTOP
| NEXT_DESKTOP | PREV_DESKTOP
| TOGGLE_STICK
| ICONIFY
| RUN
| MAXIMIZE
| REQUEST_CLOSE | FORCE_CLOSE
| K_SNAP_TOP | K_SNAP_BOTTOM | K_SNAP_LEFT | K_SNAP_RIGHT
| SCREEN_TOP | SCREEN_BOTTOM | SCREEN_LEFT | SCREEN_RIGHT
| LAYER_ABOVE | LAYER_BELOW | LAYER_TOP | LAYER_BOTTOM
| LAYER_1 | LAYER_2 | LAYER_3 | LAYER_4 | LAYER_5
| LAYER_6 | LAYER_7 | LAYER_8 | LAYER_9
| CYCLE_FOCUS | CYCLE_FOCUS_BACK | EXIT_WM.

(** The constants of common.h and configparse.h, whose values are fixed
    outside these sources. *)
Record Common := mkCommon {
  ACTION_MASK : Z;
  SECONDARY_MASK : Z;
  MOVE_BUTTON : Z;
  RESIZE_BUTTON : Z;
  LAUNCH_BUTTON : Z;
  MIN_LAYER : Z;
  MAX_LAYER : Z;
  DIALOG_LAYER : Z;
  ACT_STICK : Z;
  ACT_MAXIMIZE : Z;
  ACT_SETLAYER : Z;
  ACT_SNAP : Z;
  ACT_MOVE_X : Z;
  ACT_MOVE_Y : Z
}.

(** The rule set of one window class.  [ca_relative_x] and [ca_relative_y]
    are fractions of the screen size; they are embedded as rationals. *)
Record ClassActions := mkClassActions {
  ca_actions : Z;
  ca_snap : Direction;
  ca_layer : Z;
  ca_relative_x : Q;
  ca_relative_y : Q
}.

(** A [KeyBinding] is the pair of a key symbol and the secondary-action flag. *)
Record WMConfig := mkConfig {
  shell : string;
  hotkey : HotkeyType;
  binding_to_action : gmap (N * bool) KeyboardAction;
  classactions : gmap string ClassActions;
  no_autofocus : list string;
  show_icons : bool;
  icon_height : Z
}.

(** What the collaborators answer while one event is handled.  A handler makes
    each of these queries at most once with a given argument, so a field holds
    the answer given at the moment the handler asks. *)
Record Env := mkEnv {
  (* ClientModel *)
  is_client : Window → bool;
  find_desktop : Window → Desktop;
  get_focused : Window;
  get_screen : Window → Box;
  (* FocusCycle *)
  get_next : Window;
  get_prev : Window;
  (* XData *)
  get_keysym : N → N;
  get_attributes : Window → XWindowAttributes;
  get_wm_hints : Window → option XWMHints;
  get_class : Window → string;
  get_transient_hint : Window → Window;
  get_pointer_location : Z * Z;
  get_icon_name : Window → string;
  get_screen_boxes : list Box;
  (* the size returned by copy_pixmap of an icon's drawing context *)
  copy_pixmap_size : N → N → Dimension2D;
  (* whether fork() creates the child process *)
  fork_ok : bool
}.

(** The commands the dispatcher issues to its collaborators. *)
Inductive Call :=
(* ClientModel *)
| CM_update_screens (screens : list Box)
| CM_focus (w : Window)
| CM_next_desktop
| CM_prev_desktop
| CM_client_next_desktop (w : Window)
| CM_client_prev_desktop (w : Window)
| CM_toggle_stick (w : Window)
| CM_iconify (w : Window)
| CM_deiconify (w : Window)
| CM_change_mode (w : Window) (mode : ClientPosScale)
| CM_to_relative_screen (w : Window) (dir : Direction)
| CM_up_layer (w : Window)
| CM_down_layer (w : Window)
| CM_set_layer (w : Window) (layer : Z)
| CM_start_moving (w : Window)
| CM_start_resizing (w : Window)
| CM_force_focus (w : Window)
| CM_stop_moving (w : Window) (location : Dimension2D)
| CM_stop_resizing (w : Window) (size : Dimension2D)
| CM_unmap_client (w : Window)
| CM_remove_client (w : Window)
| CM_client_reset_desktop (w : Window)
| CM_add_client (w : Window) (init_state : InitialState)
                (location size : Dimension2D) (should_focus : bool)
| CM_change_location (w : Window) (x y : Z)
(* XData *)
| XD_request_close (w : Window)
| XD_destroy_win (w : Window)
| XD_move_window (w : Window) (x y : Z)
| XD_resize_window (w : Window) (width height : Z)
| XD_get_latest_event (type : Z)
(* the drawing context of an icon *)
| GC_clear (gc : N)
| GC_copy_pixmap (gc pixmap : N) (x y : Z)
| GC_draw_string (gc : N) (x y : Z) (text : string)
(* the child process made by fork(), running /bin/sh -c cmd *)
| Spawn_sh (cmd : string).

(** ** The dispatcher's monad: its own state, and the log of calls *)

Record XEvents := mkXEvents {
  m_xmodel : XModel;
  m_done : bool
}.

Definition M (A : Type) : Type := XEvents → A * XEvents * list Call.

Definition ret {A} (a : A) : M A := fun s => (a, s, []).

Definition bind {A B} (m : M A) (f : A → M B) : M B :=
  fun s =>
    let '(a, s1, l1) := m s in
    let '(b, s2, l2) := f a s1 in
    (b, s2, l1 ++ l2).

Declare Scope xev_scope.
Delimit Scope xev_scope with xev.
Notation "x <- m ;; k" := (bind m (fun x => k))
  (at level 20, m at level 99, k at level 200, only parsing) : xev_scope.
Notation "m ;; k" := (bind m (fun _ => k))
  (at level 100, k at level 200, right associativity, only parsing) : xev_scope.

Definition call (c : Call) : M unit := fun s => (tt, s, [c]).

Definition skip : M unit := ret tt.

(** A read of the XModel. *)
Definition xmodel_get {A} (f : XModel → A) : M A :=
  fun s => (f (m_xmodel s), s, []).

(** An XModel operation that returns a value and a new XModel. *)
Definition xmodel_op {A} (f : XModel → A * XModel) : M A :=
  fun s => let '(a, xm) := f (m_xmodel s) in (a, mkXEvents xm (m_done s), []).

Definition xmodel_set (f : XModel → XModel) : M unit :=
  fun s => (tt, mkXEvents (f (m_xmodel s)) (m_done s), []).

Definition set_done : M unit :=
  fun s => (tt, mkXEvents (m_xmodel s) true, []).

(** The state and the log a handler leaves. *)
Definition exec {A} (m : M A) (s : XEvents) : XEvents * list Call :=
  let '(_, s', l) := m s in (s', l).

Definition calls_of {A} (m : M A) (s : XEvents) : list Call := snd (exec m s).
Definition state_of {A} (m : M A) (s : XEvents) : XEvents := fst (exec m s).

(** ** x-events.cpp *)

Record XKeyEvent := mkXKey {
  xkey_window : Window;
  xkey_subwindow : Window;
  xkey_state : Z;
  xkey_keycode : N
}.

Record XButtonEvent := mkXButton {
  xbutton_window : Window;
  xbutton_subwindow : Window;
  xbutton_state : Z;
  xbutton_button : Z
}.

(** The [XEvent] union, by event type, with the fields the handlers read.
    [EvRRNotify] is the event whose type is [randr_event_offset + RRNotify];
    [EvOther] is any type the dispatcher has no case for. *)
Inductive XEvent :=
| EvKeyPress (xkey : XKeyEvent)
| EvButtonPress (xbutton : XButtonEvent)
| EvButtonRelease (xbutton : XButtonEvent)
| EvMotionNotify
| EvMapNotify (window : Window)
| EvUnmapNotify (window : Window)
| EvExpose (window : Window)
| EvDestroyNotify (window : Window)
| EvRRNotify
| EvOther.

(** [flags & mask], read as a condition. *)
Definition has_flag (flags mask : Z) : bool := negb (Z.land flags mask =? 0).

(** The conversion of a fraction to a [Dimension]: truncation toward zero. *)
Definition to_Dimension (q : Q) : Z := Z.quot (Qnum q) (Z.pos (Qden q)).

(** [dim * rel], stored into a [Dimension]. *)
Definition scaled (dim : Z) (rel : Q) : Z :=
  to_Dimension (Qmult (inject_Z dim) rel).

Section Dispatcher.

Context (K : Common) (m_config : WMConfig) (env : Env).

Local Open Scope xev_scope.

Definition handle_rrnotify : M unit :=
  call (CM_update_screens (get_screen_boxes env)).

(** The client a key press is aimed at; [None] is the [default: return]. *)
Definition keypress_client (ev : XKeyEvent) : option Window :=
  match hotkey m_config with
  | HK_MOUSE =>
      Some (if (xkey_subwindow ev =? NoneWin)%N
            then xkey_window ev else xkey_subwindow ev)
  | HK_FOCUS => Some (get_focused env)
  | HK_OTHER => None
  end.

(** [binding_to_action[binding]]: a binding that is not in the table reads as
    the default action (and is then added to the table with that value, which
    no later subscript can tell apart from its absence). *)
Definition keypress_action (ev : XKeyEvent) : KeyboardAction :=
  let key := get_keysym env (xkey_keycode ev) in
  let is_using_secondary_action :=
    has_flag (xkey_state ev) (SECONDARY_MASK K) in
  default INVALID_ACTION
    (binding_to_action m_config !! (key, is_using_secondary_action)).

(** The second [switch] of the key handler, for a known client. *)
Definition client_action (action : KeyboardAction) (client : Window) : M unit :=
  match action with
  | CLIENT_NEXT_DESKTOP => call (CM_client_next_desktop client)
  | CLIENT_PREV_DESKTOP => call (CM_client_prev_desktop client)
  | TOGGLE_STICK => call (CM_toggle_stick client)
  | ICONIFY => call (CM_iconify client)
  | MAXIMIZE => call (CM_change_mode client CPS_MAX)
  | REQUEST_CLOSE => call (XD_request_close client)
  | FORCE_CLOSE => call (XD_destroy_win client)
  | K_SNAP_TOP => call (CM_change_mode client CPS_SPLIT_TOP)
  | K_SNAP_BOTTOM => call (CM_change_mode client CPS_SPLIT_BOTTOM)
  | K_SNAP_LEFT => call (CM_change_mode client CPS_SPLIT_LEFT)
  | K_SNAP_RIGHT => call (CM_change_mode client CPS_SPLIT_RIGHT)
  | SCREEN_TOP => call (CM_to_relative_screen client DIR_TOP)
  | SCREEN_BOTTOM => call (CM_to_relative_screen client DIR_BOTTOM)
  | SCREEN_LEFT => call (CM_to_relative_screen client DIR_LEFT)
  | SCREEN_RIGHT => call (CM_to_relative_screen client DIR_RIGHT)
  | LAYER_ABOVE => call (CM_up_layer client)
  | LAYER_BELOW => call (CM_down_layer client)
  | LAYER_TOP => call (CM_set_layer client (MAX_LAYER K))
  | LAYER_BOTTOM => call (CM_set_layer client (MIN_LAYER K))
  | LAYER_1 => call (CM_set_layer client 1)
  | LAYER_2 => call (CM_set_layer client 2)
  | LAYER_3 => call (CM_set_layer client 3)
  | LAYER_4 => call (CM_set_layer client 4)
  | LAYER_5 => call (CM_set_layer client 5)
  | LAYER_6 => call (CM_set_layer client 6)
  | LAYER_7 => call (CM_set_layer client 7)
  | LAYER_8 => call (CM_set_layer client 8)
  | LAYER_9 => call (CM_set_layer client 9)
  | _ => skip
  end.

Definition handle_keypress (ev : XKeyEvent) : M unit :=
  match keypress_client ev with
  | None => skip
  | Some client =>
      let action := keypress_action ev in
      match action with
      | RUN =>
          if fork_ok env then call (Spawn_sh "exec /usr/bin/dmenu_run")
          else skip
      | CYCLE_FOCUS =>
          let next_focused := get_next env in
          if negb (next_focused =? NoneWin)%N
          then call (CM_focus next_focused) else skip
      | CYCLE_FOCUS_BACK =>
          let prev_focused := get_prev env in
          if negb (prev_focused =? NoneWin)%N
          then call (CM_focus prev_focused) else skip
      | EXIT_WM => set_done
      | NEXT_DESKTOP => call CM_next_desktop
      | PREV_DESKTOP => call CM_prev_desktop
      | _ =>
          if is_client env client then client_action action client else skip
      end
  end.

Definition handle_buttonpress (ev : XButtonEvent) : M unit :=
  let is_client :=
    is_client env (xbutton_window ev) || is_client env (xbutton_subwindow ev) in
  icon <- xmodel_op (find_icon_from_icon_window (xbutton_window ev)) ;;
  if negb (is_client || bool_decide (is_Some icon))
     && (xbutton_button ev =? LAUNCH_BUTTON K)
     && (xbutton_state ev =? ACTION_MASK K)
  then
    if fork_ok env
    then call (Spawn_sh (String.append "exec " (shell m_config)))
    else skip
  else
    match icon with
    | Some i => call (CM_deiconify (Icon_client i))
    | None =>
        if is_client && (xbutton_state ev =? ACTION_MASK K)
        then
          if negb (xbutton_button ev =? MOVE_BUTTON K)
             && negb (xbutton_button ev =? RESIZE_BUTTON K)
          then skip
          else
            (if xbutton_button ev =? MOVE_BUTTON K
             then call (CM_start_moving (xbutton_subwindow ev)) else skip) ;;
            (if xbutton_button ev =? RESIZE_BUTTON K
             then call (CM_start_resizing (xbutton_subwindow ev)) else skip)
        else if is_client
        then call (CM_force_focus (xbutton_window ev))
        else skip
    end.

Definition handle_buttonrelease (ev : XButtonEvent) : M unit :=
  expected_placeholder <- xmodel_get get_move_resize_placeholder ;;
  if negb (expected_placeholder =? xbutton_window ev)%N
  then skip
  else
    state <- xmodel_get get_move_resize_state ;;
    client <- xmodel_get get_move_resize_client ;;
    let attrs := get_attributes env expected_placeholder in
    match state with
    | MR_MOVE => call (CM_stop_moving client (attr_x attrs, attr_y attrs))
    | MR_RESIZE =>
        call (CM_stop_resizing client (attr_width attrs, attr_height attrs))
    | MR_INVALID => skip
    end.

Definition handle_unmapnotify (being_unmapped : Window) : M unit :=
  call (CM_unmap_client being_unmapped).

Definition handle_motionnotify : M unit :=
  placeholder <- xmodel_get get_move_resize_placeholder ;;
  if (placeholder =? NoneWin)%N
  then skip
  else
    let attr := get_attributes env placeholder in
    call (XD_get_latest_event MotionNotify) ;;
    let '(ptr_x, ptr_y) := get_pointer_location env in
    relative_change <- xmodel_op (update_pointer ptr_x ptr_y) ;;
    state <- xmodel_get get_move_resize_state ;;
    match state with
    | MR_MOVE =>
        call (XD_move_window placeholder
                (wrap_int (attr_x attr + fst relative_change))
                (wrap_int (attr_y attr + snd relative_change)))
    | MR_RESIZE =>
        let change_x :=
          if wrap_int (attr_width attr + fst relative_change) <=? 0
          then 0 else fst relative_change in
        let change_y :=
          if wrap_int (attr_height attr + snd relative_change) <=? 0
          then 0 else snd relative_change in
        call (XD_resize_window placeholder
                (wrap_int (attr_width attr + change_x))
                (wrap_int (attr_height attr + change_y)))
    | MR_INVALID => skip
    end.

Definition handle_expose (window : Window) : M unit :=
  the_icon <- xmodel_op (find_icon_from_icon_window window) ;;
  match the_icon with
  | None => skip
  | Some the_icon =>
      call (GC_clear (Icon_gc the_icon)) ;;
      text_x_offset <-
        (if show_icons m_config
         then
           match get_wm_hints env (Icon_client the_icon) with
           | Some hints =>
               if has_flag (hints_flags hints) IconPixmapHint
               then
                 call (GC_copy_pixmap (Icon_gc the_icon)
                                      (hints_icon_pixmap hints) 0 0) ;;
                 ret (fst (copy_pixmap_size env (Icon_gc the_icon)
                                            (hints_icon_pixmap hints)))
               else ret 0
           | None => ret 0
           end
         else ret 0) ;;
      call (GC_draw_string (Icon_gc the_icon) text_x_offset
                           (icon_height m_config)
                           (get_icon_name env (Icon_client the_icon)))
  end.

Definition handle_destroynotify (destroyed_window : Window) : M unit :=
  call (CM_remove_client destroyed_window).

(** The initial state a new window asks for in its hints. *)
Definition initial_state_of (hints : option XWMHints) : InitialState :=
  match hints with
  | Some h =>
      if has_flag (hints_flags h) StateHint
         && (hints_initial_state h =? IconicState)
      then IS_HIDDEN else IS_VISIBLE
  | None => IS_VISIBLE
  end.

Definition snap_mode (snap : Direction) : ClientPosScale :=
  match snap with
  | DIR_LEFT => CPS_SPLIT_LEFT
  | DIR_RIGHT => CPS_SPLIT_RIGHT
  | DIR_TOP => CPS_SPLIT_TOP
  | DIR_BOTTOM => CPS_SPLIT_BOTTOM
  end.

(** The rules tied to the window's class, run on a new visible client. *)
Definition class_actions (window : Window) (win_attr : XWindowAttributes)
    (action : ClassActions) : M unit :=
  (if has_flag (ca_actions action) (ACT_STICK K)
   then call (CM_toggle_stick window) else skip) ;;
  (if has_flag (ca_actions action) (ACT_MAXIMIZE K)
   then call (CM_change_mode window CPS_MAX) else skip) ;;
  (if has_flag (ca_actions action) (ACT_SETLAYER K)
   then call (CM_set_layer window (ca_layer action)) else skip) ;;
  (if has_flag (ca_actions action) (ACT_SNAP K)
   then call (CM_change_mode window (snap_mode (ca_snap action))) else skip) ;;
  if has_flag (ca_actions action) (ACT_MOVE_X K)
     || has_flag (ca_actions action) (ACT_MOVE_Y K)
  then
    let screen := get_screen env window in
    call (CM_change_mode window CPS_FLOATING) ;;
    let win_x_pos :=
      if has_flag (ca_actions action) (ACT_MOVE_X K)
      then scaled (box_width screen) (ca_relative_x action)
      else attr_x win_attr in
    let win_y_pos :=
      if has_flag (ca_actions action) (ACT_MOVE_Y K)
      then scaled (box_height screen) (ca_relative_y action)
      else attr_y win_attr in
    if negb (attr_x win_attr =? win_x_pos) || negb (attr_x win_attr =? win_y_pos)
    then call (CM_change_location window win_x_pos win_y_pos)
    else skip
  else skip.

(** The first half of [add_window]: the window is a known client. *)
Definition remap_client (window : Window) : M unit :=
  let mapped_desktop := find_desktop env window in
  (if is_icon_desktop mapped_desktop
   then call (CM_deiconify window) else skip) ;;
  (if is_moving_desktop mapped_desktop || is_resizing_desktop mapped_desktop
   then
     placeholder <- xmodel_get get_move_resize_placeholder ;;
     xmodel_set exit_move_resize ;;
     let placeholder_attr := get_attributes env placeholder in
     if is_moving_desktop mapped_desktop
     then call (CM_stop_moving window
                  (attr_x placeholder_attr, attr_y placeholder_attr))
     else if is_resizing_desktop mapped_desktop
     then call (CM_stop_resizing window
                  (attr_width placeholder_attr, attr_height placeholder_attr))
     else skip
   else skip) ;;
  if negb (is_all_desktop mapped_desktop)
  then call (CM_client_reset_desktop window)
  else skip.

Definition add_window (window : Window) : M unit :=
  if is_client env window
  then remap_client window
  else
    let win_attr := get_attributes env window in
    if attr_override_redirect win_attr
    then skip
    else
      let init_state := initial_state_of (get_wm_hints env window) in
      let win_class := get_class env window in
      let should_focus := bool_decide (win_class ∉ no_autofocus m_config) in
      call (CM_add_client window init_state
              (attr_x win_attr, attr_y win_attr)
              (attr_width win_attr, attr_height win_attr)
              should_focus) ;;
      (if negb (get_transient_hint env window =? NoneWin)%N
       then call (CM_set_layer window (DIALOG_LAYER K)) else skip) ;;
      match classactions m_config !! win_class, init_state with
      | Some action, IS_VISIBLE => class_actions window win_attr action
      | _, _ => skip
      end.

Definition handle_mapnotify (being_mapped : Window) : M unit :=
  add_window being_mapped.

Definition handle_event (ev : XEvent) : M unit :=
  match ev with
  | EvRRNotify => handle_rrnotify
  | EvKeyPress k => handle_keypress k
  | EvButtonPress b => handle_buttonpress b
  | EvButtonRelease b => handle_buttonrelease b
  | EvMotionNotify => handle_motionnotify
  | EvMapNotify w => handle_mapnotify w
  | EvUnmapNotify w => handle_unmapnotify w
  | EvExpose w => handle_expose w
  | EvDestroyNotify w => handle_destroynotify w
  | EvOther => skip
  end.

(** One iteration of the event loop on the event that [next_event] gave. *)
Definition step (ev : XEvent) : M bool :=
  handle_event ev ;;
  fun s => (negb (m_done s), s, []).

End Dispatcher.

(** ** Releasing the placeholder: the client registry's side *)

(** The geometry the registry keeps for a client. *)
Record ClientGeometry := mkGeometry {
  cl_location : Dimension2D;
  cl_size : Dimension2D
}.

Record World := mkWorld {
  w_events : XEvents;
  w_clients : gmap N ClientGeometry
}.

Definition close_session (s : XEvents) : XEvents :=
  mkXEvents (exit_move_resize (m_xmodel s)) (m_done s).

(** Modelled from the spec: [ClientModel::stop_moving] and the change handling
    behind it are outside these sources.  The spec has a release "commit it to
    the real client (move → reposition ...), and close the session", and has
    registry operations on an unknown id be no-ops. *)
Definition stop_moving (client : Window) (location : Dimension2D) (w : World)
  : World :=
  mkWorld (close_session (w_events w))
          (alter (fun g => mkGeometry location (cl_size g)) client (w_clients w)).

(** Modelled from the spec: [ClientModel::stop_resizing] and the change
    handling behind it are outside these sources.  The spec has a release
    "commit it to the real client (... resize → resize), and close the
    session", and has registry operations on an unknown id be no-ops. *)
Definition stop_resizing (client : Window) (size : Dimension2D) (w : World)
  : World :=
  mkWorld (close_session (w_events w))
          (alter (fun g => mkGeometry (cl_location g) size) client (w_clients w)).

(** The effect of a logged call on the world; only the two calls a release
    can make are interpreted. *)
Definition commit (c : Call) (w : World) : option World :=
  match c with
  | CM_stop_moving client location => Some (stop_moving client location w)
  | CM_stop_resizing client size => Some (stop_resizing client size w)
  | _ => None
  end.

Fixpoint commit_all (cs : list Call) (w : World) : option World :=
  match cs with
  | [] => Some w
  | c :: cs' =>
      match commit c w with
      | Some w' => commit_all cs' w'
      | None => None
      end
  end.

(** A button-release event, from the handler to the registry. *)
Definition button_release (env : Env) (ev : XButtonEvent) (w : World)
  : option World :=
  let '(s', cs) := exec (handle_buttonrelease env ev) (w_events w) in
  commit_all cs (mkWorld s' (w_clients w)).

(** The command lines of the child processes a log of calls starts. *)
Definition spawned (cs : list Call) : list string :=
  omap (fun c => match c with Spawn_sh cmd => Some cmd | _ => None end) cs.

(** The size a resize session asks for in one dimension: the current size
    plus the pointer's change, the change being dropped when the sum would
    not be positive. *)
Definition clamped (dim change : Z) : Z :=
  wrap_int (dim + (if wrap_int (dim + change) <=? 0 then 0 else change)).

(** The call that registers a new window, as [add_window] builds it. *)
Definition add_client_call (m_config : WMConfig) (env : Env) (window : Window)
  : Call :=
  let win_attr := get_attributes env window in
  CM_add_client window (initial_state_of (get_wm_hints env window))
    (attr_x win_attr, attr_y win_attr)
    (attr_width win_attr, attr_height win_attr)
    (bool_decide (get_class env window ∉ no_autofocus m_config)).

(** The call that puts a transient window on the dialog layer. *)
Definition dialog_calls (K : Common) (env : Env) (window : Window)
  : list Call :=
  if (get_transient_hint env window =? NoneWin)%N
  then [] else [CM_set_layer window (DIALOG_LAYER K)].

(** ** Sequences of session requests *)

(** A request to start a session: [enter_move] or [enter_resize]. *)
Inductive EnterCall :=
| CallEnterMove (client placeholder : Window)
| CallEnterResize (client placeholder : Window).

Definition run_enter_call (c : EnterCall) (s : XModel) : XModel :=
  match c with
  | CallEnterMove client placeholder => enter_move client placeholder s
  | CallEnterResize client placeholder => enter_resize client placeholder s
  end.

(** The session a request asks for. *)
Definition requested_session (c : EnterCall) : MoveResize :=
  match c with
  | CallEnterMove client placeholder => mkMoveResize client placeholder MR_MOVE
  | CallEnterResize client placeholder =>
      mkMoveResize client placeholder MR_RESIZE
  end.

(** ** What a log of calls asks of the registry *)

(** The windows a log of calls registers as new clients. *)
Definition registrations (cs : list Call) : list Window :=
  omap (fun c => match c with
                 | CM_add_client w _ _ _ _ => Some w
                 | _ => None
                 end) cs.

(** The layers a log of calls sets, in order. *)
Definition layers_set (cs : list Call) : list Z :=
  omap (fun c => match c with CM_set_layer _ l => Some l | _ => None end) cs.

(** The placement modes a log of calls asks for, in order. *)
Definition modes_set (cs : list Call) : list ClientPosScale :=
  omap (fun c => match c with CM_change_mode _ m => Some m | _ => None end) cs.

(** The key actions that need no client: the first [switch] of the key
    handler. *)
Definition is_global_action (a : KeyboardAction) : bool :=
  match a with
  | RUN | CYCLE_FOCUS | CYCLE_FOCUS_BACK | EXIT_WM
  | NEXT_DESKTOP | PREV_DESKTOP => true
  | _ => false
  end.

(** Sample constants and collaborators for the examples: the X11 values of
    Mod4Mask, ControlMask, Button1 and Button3, and one bit per class
    action. *)
Definition sample_K : Common := mkCommon 64 4 1 3 1 0 10 11 1 2 4 8 16 32.

Definition sample_env (known : Window → bool) (d : Desktop)
    (attrs : XWindowAttributes) (class : string) (transient : Window) : Env :=
  mkEnv known (fun _ => d) 0%N (fun _ => mkBox 0 0 400 200) 0%N 0%N
        (fun k => k) (fun _ => attrs) (fun _ => None) (fun _ => class)
        (fun _ => transient) (0, 0) (fun _ => "name") []
        (fun _ _ => (16, 16)) true.



(** ** x-events.h: the constructor *)

#[global] Instance KeyboardAction_eq_dec : EqDecision KeyboardAction.
Proof. solve_decision. Defined.

(** The position of an action in the declaration above, to key maps with. *)
Definition action_index (a : KeyboardAction) : nat :=
  match a with
  | INVALID_ACTION => 0
  | CLIENT_NEXT_DESKTOP => 1 | CLIENT_PREV_DESKTOP => 2
  | NEXT_DESKTOP => 3 | PREV_DESKTOP => 4
  | TOGGLE_STICK => 5 | ICONIFY => 6 | RUN => 7 | MAXIMIZE => 8
  | REQUEST_CLOSE => 9 | FORCE_CLOSE => 10
  | K_SNAP_TOP => 11 | K_SNAP_BOTTOM => 12
  | K_SNAP_LEFT => 13 | K_SNAP_RIGHT => 14
  | SCREEN_TOP => 15 | SCREEN_BOTTOM => 16
  | SCREEN_LEFT => 17 | SCREEN_RIGHT => 18
  | LAYER_ABOVE => 19 | LAYER_BELOW => 20
  | LAYER_TOP => 21 | LAYER_BOTTOM => 22
  | LAYER_1 => 23 | LAYER_2 => 24 | LAYER_3 => 25 | LAYER_4 => 26
  | LAYER_5 => 27 | LAYER_6 => 28 | LAYER_7 => 29 | LAYER_8 => 30
  | LAYER_9 => 31
  | CYCLE_FOCUS => 32 | CYCLE_FOCUS_BACK => 33 | EXIT_WM => 34
  end%nat.

(** The array of actions the constructor walks, with its terminator. *)
Definition actions : list KeyboardAction :=
  [CLIENT_NEXT_DESKTOP; CLIENT_PREV_DESKTOP;
   NEXT_DESKTOP; PREV_DESKTOP;
   TOGGLE_STICK;
   ICONIFY;
   RUN;
   MAXIMIZE;
   REQUEST_CLOSE; FORCE_CLOSE;
   K_SNAP_TOP; K_SNAP_BOTTOM; K_SNAP_LEFT; K_SNAP_RIGHT;
   SCREEN_TOP; SCREEN_BOTTOM; SCREEN_LEFT; SCREEN_RIGHT;
   LAYER_ABOVE; LAYER_BELOW; LAYER_TOP; LAYER_BOTTOM;
   LAYER_1; LAYER_2; LAYER_3; LAYER_4; LAYER_5; LAYER_6; LAYER_7; LAYER_8;
   LAYER_9;
   CYCLE_FOCUS; CYCLE_FOCUS_BACK; EXIT_WM;
   INVALID_ACTION].

(** What the constructor asks of XData. *)
Inductive Grab :=
| XD_add_hotkey_mouse (button : Z)
| XD_add_hotkey (key : N) (secondary : bool).

(** [action_to_binding[action]], a [std::map] keyed by the action (here by
    its position): an action without a binding reads as the
    value-initialised pair. *)
Definition binding_of (action_to_binding : gmap nat (N * bool))
    (a : KeyboardAction) : N * bool :=
  default (0%N, false) (action_to_binding !! action_index a).

(** The [for] loop of the constructor: it walks the array up to the first
    [INVALID_ACTION]. *)
Fixpoint add_hotkeys (action_to_binding : gmap nat (N * bool))
    (l : list KeyboardAction) : list Grab :=
  match l with
  | [] => []
  | a :: l' =>
      if decide (a = INVALID_ACTION) then []
      else XD_add_hotkey (fst (binding_of action_to_binding a))
                         (snd (binding_of action_to_binding a))
           :: add_hotkeys action_to_binding l'
  end.

(** The constructor: the dispatcher starts not done, and grabs the three
    mouse buttons and one hotkey per action. *)
Definition XEvents_new (K : Common) (action_to_binding : gmap nat (N * bool))
    (xmodel : XModel) : XEvents * list Grab :=
  (mkXEvents xmodel false,
   [XD_add_hotkey_mouse (MOVE_BUTTON K);
    XD_add_hotkey_mouse (RESIZE_BUTTON K);
    XD_add_hotkey_mouse (LAUNCH_BUTTON K)]
   ++ add_hotkeys action_to_binding actions).

(** * Properties *)

(** ** The move/resize session *)

Lemma enter_move_active s mr client placeholder :
  m_moveresize s = Some mr → enter_move client placeholder s = s.
Proof. intros H. unfold enter_move. by rewrite H. Qed.

Lemma enter_resize_active s mr client placeholder :
  m_moveresize s = Some mr → enter_resize client placeholder s = s.
Proof. intros H. unfold enter_resize. by rewrite H. Qed.

(** C1: while a session is active, [enter_move] and [enter_resize] change
    nothing: the model is the same afterwards, so the client, the placeholder
    and the state of the session are those of the original session. *)
Theorem enter_while_active_is_noop (s : XModel) (mr : MoveResize)
    (client placeholder : Window) :
  m_moveresize s = Some mr →
  ∀ s', s' = enter_move client placeholder s
        ∨ s' = enter_resize client placeholder s →
    s' = s
    ∧ m_moveresize s' = Some mr
    ∧ get_move_resize_client s' = mr_client mr
    ∧ get_move_resize_placeholder s' = mr_placeholder mr
    ∧ get_move_resize_state s' = mr_state mr.
Proof.
  intros Hactive s' Hs'.
  assert (s' = s) as ->.
  { destruct Hs' as [-> | ->];
      eauto using enter_move_active, enter_resize_active. }
  unfold get_move_resize_client, get_move_resize_placeholder,
    get_move_resize_state.
  by rewrite Hactive.
Qed.

Lemma enter_while_active_is_noop_witness :
  let s := enter_move 7 99 XModel_init in
  let s' := enter_resize 8 100 s in
  s' = s ∧ get_move_resize_client s' = 7%N
  ∧ get_move_resize_placeholder s' = 99%N
  ∧ get_move_resize_state s' = MR_MOVE.
Proof.
  intros s s'.
  destruct (enter_while_active_is_noop s (mkMoveResize 7 99 MR_MOVE) 8 100
              eq_refl s' (or_intror eq_refl)) as (H1 & _ & H2 & H3 & H4).
  exact (conj H1 (conj H2 (conj H3 H4))).
Defined.

(** ** The icon tables *)

Lemma map_subscript_fst (m : gmap N (option Icon)) (key : Window) :
  fst (map_subscript m key) = default None (m !! key).
Proof. unfold map_subscript. by destruct (m !! key). Qed.

Lemma found_by_client_lookup s i :
  found_by_client s i ↔ m_clients_to_icons s !! Icon_client i = Some (Some i).
Proof.
  unfold found_by_client, find_icon_from_client, map_subscript.
  destruct (m_clients_to_icons s !! Icon_client i) as [[j|]|]; simpl;
    split; congruence.
Qed.

Lemma found_by_icon_window_lookup s i :
  found_by_icon_window s i
  ↔ m_icon_windows_to_icons s !! Icon_icon i = Some (Some i).
Proof.
  unfold found_by_icon_window, find_icon_from_icon_window, map_subscript.
  destruct (m_icon_windows_to_icons s !! Icon_icon i) as [[j|]|]; simpl;
    split; congruence.
Qed.

Lemma tables_paired_init : tables_paired XModel_init.
Proof. split; intros w j H; simpl in H; by rewrite lookup_empty in H. Qed.

Lemma tables_paired_both_or_neither s : tables_paired s → both_or_neither s.
Proof.
  intros [Hc Hi] i.
  rewrite found_by_client_lookup, found_by_icon_window_lookup.
  split; intros H; [apply Hc in H | apply Hi in H]; tauto.
Qed.

Lemma entry_free_or_own_spec e i j :
  entry_free_or_own e i = true → e = Some (Some j) → j = i.
Proof. intros H ->. simpl in H. by apply bool_decide_eq_true in H. Qed.

Lemma subscript_keeps_icons (m : gmap N (option Icon)) key w j :
  snd (map_subscript m key) !! w = Some (Some j) ↔ m !! w = Some (Some j).
Proof.
  unfold map_subscript. destruct (m !! key) eqn:E; simpl; [done|].
  destruct (decide (key = w)) as [->|Hne].
  - rewrite lookup_insert_eq, E. split; congruence.
  - by rewrite lookup_insert_ne.
Qed.

Lemma tables_paired_step c s :
  tables_paired s → icon_call_ok c s = true → tables_paired (run_icon_call c s).
Proof.
  intros [Hc Hi] Hok. destruct c as [i|i|w0|w0]; simpl in *.
  - apply andb_prop in Hok as [Hk1 Hk2].
    split; intros w j; simpl; intros H.
    + destruct (decide (Icon_client i = w)) as [<-|Hne].
      * rewrite lookup_insert_eq in H. injection H as <-.
        by rewrite lookup_insert_eq.
      * rewrite lookup_insert_ne in H by done.
        destruct (Hc _ _ H) as [Hw Hj]. split; [done|].
        destruct (decide (Icon_icon i = Icon_icon j)) as [Heq|Hne'].
        -- rewrite Heq in Hk2.
           pose proof (entry_free_or_own_spec _ _ _ Hk2 Hj). congruence.
        -- by rewrite lookup_insert_ne.
    + destruct (decide (Icon_icon i = w)) as [<-|Hne].
      * rewrite lookup_insert_eq in H. injection H as <-.
        by rewrite lookup_insert_eq.
      * rewrite lookup_insert_ne in H by done.
        destruct (Hi _ _ H) as [Hw Hj]. split; [done|].
        destruct (decide (Icon_client i = Icon_client j)) as [Heq|Hne'].
        -- rewrite Heq in Hk1.
           pose proof (entry_free_or_own_spec _ _ _ Hk1 Hj). congruence.
        -- by rewrite lookup_insert_ne.
  - apply andb_prop in Hok as [Hk1 Hk2].
    split; intros w j; simpl; intros H.
    + apply lookup_delete_Some in H as [Hne H].
      destruct (Hc _ _ H) as [Hw Hj]. split; [done|].
      apply lookup_delete_Some. split; [|done].
      intros Heq. rewrite Heq in Hk2.
      pose proof (entry_free_or_own_spec _ _ _ Hk2 Hj). congruence.
    + apply lookup_delete_Some in H as [Hne H].
      destruct (Hi _ _ H) as [Hw Hj]. split; [done|].
      apply lookup_delete_Some. split; [|done].
      intros Heq. rewrite Heq in Hk1.
      pose proof (entry_free_or_own_spec _ _ _ Hk1 Hj). congruence.
  - unfold find_icon_from_client.
    pose proof (subscript_keeps_icons (m_clients_to_icons s) w0) as Hsub.
    destruct (map_subscript (m_clients_to_icons s) w0) as [r m]; simpl in *.
    split; intros w j H.
    + apply Hsub in H. by apply Hc.
    + destruct (Hi _ _ H). split; [done|]. by apply Hsub.
  - unfold find_icon_from_icon_window.
    pose proof (subscript_keeps_icons (m_icon_windows_to_icons s) w0) as Hsub.
    destruct (map_subscript (m_icon_windows_to_icons s) w0) as [r m];
      simpl in *.
    split; intros w j H.
    + destruct (Hc _ _ H). split; [done|]. by apply Hsub.
    + apply Hsub in H. by apply Hi.
Qed.

Lemma tables_paired_run cs : ∀ s,
  tables_paired s → icon_calls_ok cs s = true →
  tables_paired (run_icon_calls cs s).
Proof.
  induction cs as [|c cs IH]; intros s Hs Hok; simpl in *; [done|].
  apply andb_prop in Hok as [Hc Hcs].
  apply IH; [by apply tables_paired_step | done].
Qed.

Lemma register_icon_found s i :
  fst (find_icon_from_client (Icon_client i) (register_icon i s)) = Some i
  ∧ fst (find_icon_from_icon_window (Icon_icon i) (register_icon i s)) = Some i.
Proof.
  split.
  - apply found_by_client_lookup. simpl. apply lookup_insert_eq.
  - apply found_by_icon_window_lookup. simpl. apply lookup_insert_eq.
Qed.

Lemma unregister_icon_not_found s i :
  fst (find_icon_from_client (Icon_client i) (unregister_icon i s)) = None
  ∧ fst (find_icon_from_icon_window (Icon_icon i) (unregister_icon i s)) = None.
Proof.
  unfold find_icon_from_client, find_icon_from_icon_window, map_subscript.
  simpl. by rewrite !lookup_delete_eq.
Qed.

(** C2, as stated, fails: two icons registered for the same client leave the
    first one reachable through its icon window only. *)
Lemma icon_found_by_one_key_only :
  let i1 := mkIcon 1 10 0 in
  let i2 := mkIcon 1 20 0 in
  let s := run_icon_calls [CallRegister i1; CallRegister i2] XModel_init in
  found_by_icon_window s i1 ∧ ¬ found_by_client s i1 ∧ ¬ both_or_neither s.
Proof.
  intros i1 i2 s.
  assert (found_by_icon_window s i1) as H1 by (vm_compute; reflexivity).
  assert (¬ found_by_client s i1) as H2 by (vm_compute; discriminate).
  split; [done|]. split; [done|].
  intros H. apply H2, H, H1.
Qed.

(** C2, amended: [register_icon] makes the icon found through both tables and
    [unregister_icon] makes both lookups return the not-found sentinel; and
    in every state reached from the empty model by a sequence of calls in
    which each register/unregister is made on an icon whose two keys are not
    held by another icon, every icon is found through both tables or through
    neither. *)
Theorem icon_tables_both_or_neither :
  (∀ s i,
      fst (find_icon_from_client (Icon_client i) (register_icon i s)) = Some i
      ∧ fst (find_icon_from_icon_window (Icon_icon i) (register_icon i s))
        = Some i)
  ∧ (∀ s i,
      fst (find_icon_from_client (Icon_client i) (unregister_icon i s)) = None
      ∧ fst (find_icon_from_icon_window (Icon_icon i) (unregister_icon i s))
        = None)
  ∧ (∀ cs,
      icon_calls_ok cs XModel_init = true →
      both_or_neither (run_icon_calls cs XModel_init)).
Proof.
  split; [exact register_icon_found|].
  split; [exact unregister_icon_not_found|].
  intros cs Hok.
  apply tables_paired_both_or_neither, tables_paired_run;
    [exact tables_paired_init | done].
Qed.

Lemma icon_tables_both_or_neither_witness :
  let i1 := mkIcon 1 10 0 in
  let i2 := mkIcon 2 20 0 in
  let cs := [CallRegister i1; CallRegister i2; CallFindFromClient 3;
             CallUnregister i1] in
  icon_calls_ok cs XModel_init = true
  ∧ both_or_neither (run_icon_calls cs XModel_init).
Proof.
  intros i1 i2 cs.
  split; [vm_compute; reflexivity|].
  apply (proj2 (proj2 icon_tables_both_or_neither) cs).
  vm_compute; reflexivity.
Defined.

(** ** The dispatcher *)

Lemma XModel_eta (xm : XModel) :
  mkXModel (m_clients_to_icons xm) (m_icon_windows_to_icons xm)
           (m_moveresize xm) (m_pointer xm) = xm.
Proof. by destruct xm. Qed.

Lemma XEvents_eta (s : XEvents) : mkXEvents (m_xmodel s) (m_done s) = s.
Proof. by destruct s. Qed.

(** A lookup that finds an icon leaves the tables as they were. *)
Lemma find_icon_from_icon_window_found xm w i :
  fst (find_icon_from_icon_window w xm) = Some i →
  find_icon_from_icon_window w xm = (Some i, xm).
Proof.
  unfold find_icon_from_icon_window, map_subscript.
  destruct (m_icon_windows_to_icons xm !! w) as [v|] eqn:E; simpl;
    [|discriminate].
  intros ->. by rewrite XModel_eta.
Qed.

(** C3: a button press on the window of a registered icon deiconifies the
    icon's client and does nothing else, whatever the button and the modifier
    state: the only call is the deiconify (no program is spawned, no move or
    resize is started, no focus is forced) and the dispatcher's own state,
    session included, is unchanged. *)
Theorem buttonpress_on_icon_deiconifies (K : Common) (m_config : WMConfig)
    (env : Env) (ev : XButtonEvent) (s : XEvents) (i : Icon) :
  found_by_icon_window (m_xmodel s) i →
  xbutton_window ev = Icon_icon i →
  exec (handle_buttonpress K m_config env ev) s
  = (s, [CM_deiconify (Icon_client i)]).
Proof.
  unfold found_by_icon_window. intros Hfound Hwin.
  apply find_icon_from_icon_window_found in Hfound.
  unfold exec, handle_buttonpress, bind, xmodel_op.
  rewrite Hwin, Hfound, XEvents_eta.
  rewrite bool_decide_eq_true_2 by eauto.
  rewrite orb_true_r. simpl. reflexivity.
Qed.

Lemma buttonpress_on_icon_deiconifies_witness :
  let K := mkCommon 64 4 1 3 1 0 10 11 1 2 4 8 16 32 in
  let cfg := mkConfig "xterm" HK_MOUSE ∅ ∅ [] true 20 in
  let env := mkEnv (fun _ => false) (fun _ => IconDesktop) 0%N
                   (fun _ => mkBox 0 0 400 200) 0%N 0%N (fun k => k)
                   (fun _ => mkAttrs 0 0 10 10 false) (fun _ => None)
                   (fun _ => "") (fun _ => 0%N) (0, 0) (fun _ => "") []
                   (fun _ _ => (0, 0)) true in
  let i := mkIcon 42 500 1 in
  let s := mkXEvents (register_icon i XModel_init) false in
  exec (handle_buttonpress K cfg env (mkXButton 500 0 64 1)) s
  = (s, [CM_deiconify 42%N]).
Proof.
  intros K cfg env i s.
  apply (buttonpress_on_icon_deiconifies K cfg env (mkXButton 500 0 64 1) s i).
  - vm_compute. reflexivity.
  - reflexivity.
Defined.

(** C4: a map-notify on a known client that is on the sticky desktop issues no
    call at all (in particular no desktop reset) and leaves the dispatcher's
    state unchanged; on a known client that is not on the sticky desktop the
    handler ends by resetting the client's desktop to the current one. *)
Theorem mapnotify_known_client (K : Common) (m_config : WMConfig)
    (env : Env) (window : Window) (s : XEvents) :
  is_client env window = true →
  (is_all_desktop (find_desktop env window) = true →
     exec (handle_mapnotify K m_config env window) s = (s, []))
  ∧ (is_all_desktop (find_desktop env window) = false →
     ∃ cs, calls_of (handle_mapnotify K m_config env window) s
           = cs ++ [CM_client_reset_desktop window]
           ∧ CM_client_reset_desktop window ∉ cs).
Proof.
  intros Hclient.
  unfold calls_of, exec, handle_mapnotify, add_window. rewrite Hclient.
  unfold remap_client, bind, xmodel_get, xmodel_set, call, skip, ret.
  destruct (find_desktop env window) eqn:Hd; simpl; split; intros Hall;
    try discriminate; try reflexivity.
  - exists []. split; [done|]. apply not_elem_of_nil.
  - exists [CM_deiconify window]. split; [done|]. by rewrite list_elem_of_singleton.
  - eexists [CM_stop_moving window _]. split; [done|]. by rewrite list_elem_of_singleton.
  - eexists [CM_stop_resizing window _]. split; [done|]. by rewrite list_elem_of_singleton.
Qed.

Lemma mapnotify_known_client_witness :
  let K := mkCommon 64 4 1 3 1 0 10 11 1 2 4 8 16 32 in
  let cfg := mkConfig "xterm" HK_MOUSE ∅ ∅ [] true 20 in
  let env d := mkEnv (fun _ => true) (fun _ => d) 0%N
                   (fun _ => mkBox 0 0 400 200) 0%N 0%N (fun k => k)
                   (fun _ => mkAttrs 0 0 10 10 false) (fun _ => None)
                   (fun _ => "") (fun _ => 0%N) (0, 0) (fun _ => "") []
                   (fun _ _ => (0, 0)) true in
  let s := mkXEvents XModel_init false in
  exec (handle_mapnotify K cfg (env AllDesktops) 42%N) s = (s, [])
  ∧ ∃ cs, calls_of (handle_mapnotify K cfg (env IconDesktop) 42%N) s
          = cs ++ [CM_client_reset_desktop 42%N]
          ∧ CM_client_reset_desktop 42%N ∉ cs.
Proof.
  intros K cfg env s. split.
  - apply (mapnotify_known_client K cfg (env AllDesktops) 42%N s eq_refl).
    reflexivity.
  - apply (mapnotify_known_client K cfg (env IconDesktop) 42%N s eq_refl).
    reflexivity.
Defined.

Lemma buttonrelease_other_window env ev s :
  (get_move_resize_placeholder (m_xmodel s) =? xbutton_window ev)%N = false →
  exec (handle_buttonrelease env ev) s = (s, []).
Proof.
  intros H. unfold exec, handle_buttonrelease, bind, xmodel_get.
  by rewrite H.
Qed.

Lemma buttonrelease_no_session env ev s :
  m_moveresize (m_xmodel s) = None →
  exec (handle_buttonrelease env ev) s = (s, []).
Proof.
  intros H.
  unfold exec, handle_buttonrelease, bind, xmodel_get,
    get_move_resize_placeholder, get_move_resize_state.
  rewrite H. destruct (_ =? _)%N; simpl; [|done]. by rewrite H.
Qed.

Lemma buttonrelease_placeholder env ev s mr :
  m_moveresize (m_xmodel s) = Some mr →
  xbutton_window ev = mr_placeholder mr →
  exec (handle_buttonrelease env ev) s
  = (s, let attrs := get_attributes env (mr_placeholder mr) in
        match mr_state mr with
        | MR_MOVE =>
            [CM_stop_moving (mr_client mr) (attr_x attrs, attr_y attrs)]
        | MR_RESIZE =>
            [CM_stop_resizing (mr_client mr)
                              (attr_width attrs, attr_height attrs)]
        | MR_INVALID => []
        end).
Proof.
  intros H Hwin.
  unfold exec, handle_buttonrelease, bind, xmodel_get,
    get_move_resize_placeholder, get_move_resize_state,
    get_move_resize_client.
  rewrite H, Hwin, N.eqb_refl. simpl. rewrite !H.
  by destruct (mr_state mr).
Qed.

(** C5: a release on a window that is not the session's placeholder, or with
    no session at all, changes nothing.  A release on the placeholder of a
    move session hands the placeholder's position to the session's client and
    closes the session; on the placeholder of a resize session it hands over
    the placeholder's size and closes the session. *)
Theorem buttonrelease_commits_and_closes (env : Env) (ev : XButtonEvent)
    (w : World) :
  let s := w_events w in
  (xbutton_window ev ≠ get_move_resize_placeholder (m_xmodel s) →
     exec (handle_buttonrelease env ev) s = (s, [])
     ∧ button_release env ev w = Some w)
  ∧ (m_moveresize (m_xmodel s) = None →
     exec (handle_buttonrelease env ev) s = (s, [])
     ∧ button_release env ev w = Some w)
  ∧ (∀ mr, m_moveresize (m_xmodel s) = Some mr →
       xbutton_window ev = mr_placeholder mr →
       let attrs := get_attributes env (mr_placeholder mr) in
       (mr_state mr = MR_MOVE →
          calls_of (handle_buttonrelease env ev) s
          = [CM_stop_moving (mr_client mr) (attr_x attrs, attr_y attrs)]
          ∧ ∃ w', button_release env ev w = Some w'
              ∧ m_moveresize (m_xmodel (w_events w')) = None
              ∧ ∀ g, w_clients w !! mr_client mr = Some g →
                     w_clients w' !! mr_client mr
                     = Some (mkGeometry (attr_x attrs, attr_y attrs)
                                        (cl_size g)))
       ∧ (mr_state mr = MR_RESIZE →
          calls_of (handle_buttonrelease env ev) s
          = [CM_stop_resizing (mr_client mr)
                              (attr_width attrs, attr_height attrs)]
          ∧ ∃ w', button_release env ev w = Some w'
              ∧ m_moveresize (m_xmodel (w_events w')) = None
              ∧ ∀ g, w_clients w !! mr_client mr = Some g →
                     w_clients w' !! mr_client mr
                     = Some (mkGeometry (cl_location g)
                               (attr_width attrs, attr_height attrs)))).
Proof.
  intros s. subst s. destruct w as [s cl]. simpl.
  split; [|split].
  - intros Hne. unfold button_release. simpl.
    rewrite buttonrelease_other_window; [done|].
    apply N.eqb_neq. congruence.
  - intros Hnone. unfold button_release. simpl.
    by rewrite buttonrelease_no_session.
  - intros mr Hmr Hwin.
    unfold button_release, calls_of. simpl.
    rewrite (buttonrelease_placeholder env ev s mr Hmr Hwin).
    split; intros ->; simpl; (split; [done|]).
    + eexists. split; [done|]. simpl. split.
      * unfold exit_move_resize. by rewrite Hmr.
      * intros g Hg. by rewrite lookup_alter_eq, Hg.
    + eexists. split; [done|]. simpl. split.
      * unfold exit_move_resize. by rewrite Hmr.
      * intros g Hg. by rewrite lookup_alter_eq, Hg.
Qed.

Lemma buttonrelease_commits_and_closes_witness :
  let env := mkEnv (fun _ => true) (fun _ => MovingDesktop) 0%N
                   (fun _ => mkBox 0 0 400 200) 0%N 0%N (fun k => k)
                   (fun _ => mkAttrs 30 40 100 100 false) (fun _ => None)
                   (fun _ => "") (fun _ => 0%N) (0, 0) (fun _ => "") []
                   (fun _ _ => (0, 0)) true in
  let w := mkWorld (mkXEvents (enter_move 7 99 XModel_init) false)
                   {[ 7%N := mkGeometry (0, 0) (100, 100) ]} in
  ∃ w', button_release env (mkXButton 99 0 0 1) w = Some w'
        ∧ m_moveresize (m_xmodel (w_events w')) = None
        ∧ w_clients w' !! 7%N = Some (mkGeometry (30, 40) (100, 100)).
Proof.
  intros env w.
  destruct (buttonrelease_commits_and_closes env (mkXButton 99 0 0 1) w)
    as (_ & _ & H).
  destruct (H (mkMoveResize 7 99 MR_MOVE) eq_refl eq_refl) as [Hmove _].
  destruct (Hmove eq_refl) as (_ & w' & Hrel & Hclosed & Hgeo).
  exists w'. split; [exact Hrel|]. split; [exact Hclosed|].
  exact (Hgeo (mkGeometry (0, 0) (100, 100)) eq_refl).
Defined.

Lemma wrap_int_small z : - 2 ^ 31 ≤ z < 2 ^ 31 → wrap_int z = z.
Proof. intros H. unfold wrap_int. rewrite Z.mod_small; lia. Qed.

Lemma clamped_positive dim change : 0 < dim < 2 ^ 31 → 0 < clamped dim change.
Proof.
  intros H. unfold clamped.
  destruct (Z.leb_spec (wrap_int (dim + change)) 0); [|done].
  rewrite Z.add_0_r, wrap_int_small; lia.
Qed.

Lemma motionnotify_resize env s mr :
  m_moveresize (m_xmodel s) = Some mr →
  mr_state mr = MR_RESIZE →
  mr_placeholder mr ≠ NoneWin →
  let attr := get_attributes env (mr_placeholder mr) in
  let ptr := get_pointer_location env in
  let change := fst (update_pointer (fst ptr) (snd ptr) (m_xmodel s)) in
  calls_of (handle_motionnotify env) s
  = [XD_get_latest_event MotionNotify;
     XD_resize_window (mr_placeholder mr)
       (clamped (attr_width attr) (fst change))
       (clamped (attr_height attr) (snd change))].
Proof.
  intros Hmr Hstate Hph. simpl.
  unfold calls_of, exec, handle_motionnotify, bind, xmodel_get, xmodel_op,
    get_move_resize_placeholder, get_move_resize_state.
  rewrite Hmr. apply N.eqb_neq in Hph. rewrite Hph.
  destruct (get_pointer_location env) as [ptr_x ptr_y]. simpl.
  by rewrite Hmr, Hstate.
Qed.

Lemma motionnotify_no_placeholder env s :
  get_move_resize_placeholder (m_xmodel s) = NoneWin →
  exec (handle_motionnotify env) s = (s, []).
Proof.
  intros H. unfold exec, handle_motionnotify, bind, xmodel_get.
  by rewrite H.
Qed.

(** C6: while a resize session is active and the placeholder's width and
    height are positive, every resize command issued by the motion handler
    asks for a positive width and a positive height; with a placeholder the
    handler does issue the command, and each dimension is the sum of the
    current one and the pointer's change, the change being replaced by zero
    when the sum would not be positive. *)
Theorem motion_resize_stays_positive (env : Env) (s : XEvents)
    (mr : MoveResize) :
  m_moveresize (m_xmodel s) = Some mr →
  mr_state mr = MR_RESIZE →
  let attr := get_attributes env (mr_placeholder mr) in
  let ptr := get_pointer_location env in
  let change := fst (update_pointer (fst ptr) (snd ptr) (m_xmodel s)) in
  0 < attr_width attr < 2 ^ 31 →
  0 < attr_height attr < 2 ^ 31 →
  (∀ p width height,
      XD_resize_window p width height ∈ calls_of (handle_motionnotify env) s →
      0 < width ∧ 0 < height)
  ∧ (mr_placeholder mr ≠ NoneWin →
     ∃ width height,
       calls_of (handle_motionnotify env) s
       = [XD_get_latest_event MotionNotify;
          XD_resize_window (mr_placeholder mr) width height]
       ∧ width = clamped (attr_width attr) (fst change)
       ∧ height = clamped (attr_height attr) (snd change)
       ∧ 0 < width ∧ 0 < height).
Proof.
  intros Hmr Hstate attr ptr change Hw Hh.
  destruct (decide (mr_placeholder mr = NoneWin)) as [Hnone|Hph].
  - split; [|done]. intros p width height Hin.
    unfold calls_of in Hin. rewrite motionnotify_no_placeholder in Hin.
    + by apply elem_of_nil in Hin.
    + unfold get_move_resize_placeholder. by rewrite Hmr.
  - pose proof (motionnotify_resize env s mr Hmr Hstate Hph) as Hcalls.
    simpl in Hcalls. fold attr ptr change in Hcalls.
    split.
    + intros p width height Hin. rewrite Hcalls in Hin.
      apply elem_of_cons in Hin as [Hin|Hin]; [discriminate|].
      apply list_elem_of_singleton in Hin. injection Hin as -> -> ->.
      split; by apply clamped_positive.
    + intros _. eexists _, _. split; [exact Hcalls|].
      split; [done|]. split; [done|].
      split; by apply clamped_positive.
Qed.

Lemma motion_resize_stays_positive_witness :
  let env := mkEnv (fun _ => true) (fun _ => ResizingDesktop) 0%N
                   (fun _ => mkBox 0 0 400 200) 0%N 0%N (fun k => k)
                   (fun _ => mkAttrs 0 0 30 40 false) (fun _ => None)
                   (fun _ => "") (fun _ => 0%N) (-50, 5) (fun _ => "") []
                   (fun _ _ => (0, 0)) true in
  let s := mkXEvents (enter_resize 7 99 XModel_init) false in
  calls_of (handle_motionnotify env) s
  = [XD_get_latest_event MotionNotify; XD_resize_window 99 30 45].
Proof.
  intros env s.
  destruct (motion_resize_stays_positive env s (mkMoveResize 7 99 MR_RESIZE)
              eq_refl eq_refl) as [_ H].
  - simpl. lia.
  - simpl. lia.
  - destruct (H ltac:(discriminate)) as (width & height & Hc & -> & -> & _).
    exact Hc.
Defined.

(** C7: a map-notify on a window that is not a client and whose attributes
    carry [override_redirect] makes the handler return at once: no call is
    issued (no client is added, no class rule is run) and the dispatcher's
    state, with its icon tables and its session, is unchanged. *)
Theorem mapnotify_override_redirect_ignored (K : Common) (m_config : WMConfig)
    (env : Env) (window : Window) (s : XEvents) :
  is_client env window = false →
  attr_override_redirect (get_attributes env window) = true →
  exec (handle_mapnotify K m_config env window) s = (s, []).
Proof.
  intros Hclient Hover.
  unfold handle_mapnotify, add_window. by rewrite Hclient, Hover.
Qed.

Lemma mapnotify_override_redirect_ignored_witness :
  let K := mkCommon 64 4 1 3 1 0 10 11 1 2 4 8 16 32 in
  let cfg := mkConfig "xterm" HK_MOUSE ∅
               {[ "Menu" := mkClassActions 1 DIR_TOP 5 (1#2) (1#2) ]}
               [] true 20 in
  let env := mkEnv (fun _ => false) (fun _ => UserDesktop 0) 0%N
                   (fun _ => mkBox 0 0 400 200) 0%N 0%N (fun k => k)
                   (fun _ => mkAttrs 0 0 30 40 true) (fun _ => None)
                   (fun _ => "Menu") (fun _ => 0%N) (0, 0) (fun _ => "") []
                   (fun _ _ => (0, 0)) true in
  let s := mkXEvents XModel_init false in
  exec (handle_mapnotify K cfg env 42%N) s = (s, []).
Proof.
  intros K cfg env s.
  apply (mapnotify_override_redirect_ignored K cfg env 42%N s);
    reflexivity.
Defined.

(** Case analysis on whatever a handler branches on. *)
Ltac branch :=
  match goal with
  | |- context [if ?b then _ else _] => destruct b eqn:?
  | |- context [match ?x with _ => _ end] =>
      lazymatch type of x with
      | prod (prod _ XEvents) (list Call) => fail
      | _ => destruct x eqn:?
      end
  end.

Ltac run_handler :=
  unfold calls_of, state_of, exec, bind, call, skip, ret, xmodel_get,
    xmodel_op, xmodel_set, set_done;
  repeat (simpl; try branch).

Lemma class_actions_state K env window win_attr action s :
  state_of (class_actions K env window win_attr action) s = s.
Proof. unfold class_actions. run_handler; reflexivity. Qed.

Lemma exec_state_calls {A} (m : M A) s :
  exec m s = (state_of m s, calls_of m s).
Proof. unfold state_of, calls_of. by destruct (exec m s). Qed.

Lemma add_window_new K m_config env window s :
  is_client env window = false →
  attr_override_redirect (get_attributes env window) = false →
  exec (add_window K m_config env window) s
  = (s, add_client_call m_config env window
        :: dialog_calls K env window
        ++ match classactions m_config !! get_class env window,
                 initial_state_of (get_wm_hints env window) with
           | Some action, IS_VISIBLE =>
               calls_of (class_actions K env window
                           (get_attributes env window) action) s
           | _, _ => []
           end).
Proof.
  intros Hclient Hover.
  unfold add_window, add_client_call, dialog_calls.
  rewrite Hclient, Hover.
  destruct (classactions m_config !! get_class env window) as [action|];
    destruct (initial_state_of (get_wm_hints env window));
    destruct (get_transient_hint env window =? NoneWin)%N;
    try reflexivity.
  all: pose proof (exec_state_calls
         (class_actions K env window (get_attributes env window) action) s)
         as Hex;
       rewrite class_actions_state in Hex;
       unfold exec, bind, call, skip, ret in *; simpl;
       destruct (class_actions _ _ _ _ _ s) as [[[] s'] l];
       injection Hex as -> <-; by rewrite ?app_nil_r.
Qed.

Lemma initial_state_of_iconic h :
  has_flag (hints_flags h) StateHint = true →
  hints_initial_state h = IconicState →
  initial_state_of (Some h) = IS_HIDDEN.
Proof. intros Hflag Hstate. simpl. by rewrite Hflag, Hstate. Qed.

(** C9: a new manageable window whose hints ask for the iconic state is
    registered hidden and gets none of its class's rules, even when the class
    has a rule set: the only calls are the registration and, for a transient
    window, the dialog layer.  The rules of the class are run when the window
    starts visible. *)
Theorem iconic_window_gets_no_class_actions (K : Common) (m_config : WMConfig)
    (env : Env) (window : Window) (s : XEvents) :
  is_client env window = false →
  attr_override_redirect (get_attributes env window) = false →
  let win_attr := get_attributes env window in
  let should_focus := bool_decide (get_class env window ∉ no_autofocus m_config) in
  (∀ h, get_wm_hints env window = Some h →
        has_flag (hints_flags h) StateHint = true →
        hints_initial_state h = IconicState →
        exec (handle_mapnotify K m_config env window) s
        = (s, CM_add_client window IS_HIDDEN
                (attr_x win_attr, attr_y win_attr)
                (attr_width win_attr, attr_height win_attr) should_focus
              :: dialog_calls K env window))
  ∧ (∀ action,
        classactions m_config !! get_class env window = Some action →
        initial_state_of (get_wm_hints env window) = IS_VISIBLE →
        exec (handle_mapnotify K m_config env window) s
        = (s, CM_add_client window IS_VISIBLE
                (attr_x win_attr, attr_y win_attr)
                (attr_width win_attr, attr_height win_attr) should_focus
              :: dialog_calls K env window
              ++ calls_of (class_actions K env window win_attr action) s)).
Proof.
  intros Hclient Hover win_attr should_focus.
  unfold handle_mapnotify. rewrite add_window_new by done.
  unfold add_client_call. fold win_attr should_focus.
  split.
  - intros h Hh Hflag Hstate.
    rewrite Hh, (initial_state_of_iconic h Hflag Hstate).
    destruct (classactions m_config !! get_class env window);
      by rewrite app_nil_r.
  - intros action Haction Hvisible. by rewrite Haction, Hvisible.
Qed.

Lemma iconic_window_gets_no_class_actions_witness :
  let K := mkCommon 64 4 1 3 1 0 10 11 1 2 4 8 16 32 in
  let cfg := mkConfig "xterm" HK_MOUSE ∅
               {[ "Dialog" := mkClassActions 63 DIR_TOP 5 (1#2) (1#2) ]}
               [] true 20 in
  let env := mkEnv (fun _ => false) (fun _ => UserDesktop 0) 0%N
                   (fun _ => mkBox 0 0 400 200) 0%N 0%N (fun k => k)
                   (fun _ => mkAttrs 10 20 30 40 false)
                   (fun _ => Some (mkHints 2 3 0))
                   (fun _ => "Dialog") (fun _ => 0%N) (0, 0) (fun _ => "") []
                   (fun _ _ => (0, 0)) true in
  let s := mkXEvents XModel_init false in
  exec (handle_mapnotify K cfg env 42%N) s
  = (s, [CM_add_client 42 IS_HIDDEN (10, 20) (30, 40) true]).
Proof.
  intros K cfg env s.
  destruct (iconic_window_gets_no_class_actions K cfg env 42%N s
              eq_refl eq_refl) as [H _].
  exact (H (mkHints 2 3 0) eq_refl eq_refl eq_refl).
Defined.

(** ** Spawned programs *)

Lemma keypress_spawned K m_config env ev s cmd :
  cmd ∈ spawned (calls_of (handle_keypress K m_config env ev) s) →
  cmd = "exec /usr/bin/dmenu_run"
  ∧ keypress_action K m_config env ev = RUN.
Proof.
  unfold handle_keypress.
  destruct (keypress_client m_config env ev) as [client|];
    [|by intros ?%elem_of_nil].
  destruct (keypress_action K m_config env ev) eqn:Haction;
    unfold client_action; run_handler;
    try (by intros ?%elem_of_nil).
  by intros ->%list_elem_of_singleton.
Qed.

Lemma buttonpress_spawned K m_config env ev s cmd :
  cmd ∈ spawned (calls_of (handle_buttonpress K m_config env ev) s) →
  cmd = String.append "exec " (shell m_config)
  ∧ xbutton_button ev = LAUNCH_BUTTON K
  ∧ xbutton_state ev = ACTION_MASK K.
Proof.
  unfold handle_buttonpress, calls_of, exec, bind, xmodel_op.
  destruct (find_icon_from_icon_window _ _) as [icon xm].
  destruct (_ && (xbutton_button ev =? LAUNCH_BUTTON K)
            && (xbutton_state ev =? ACTION_MASK K)) eqn:Hlaunch.
  - apply andb_prop in Hlaunch as [[_ Hb%Z.eqb_eq]%andb_prop Hs%Z.eqb_eq].
    run_handler; [|by intros ?%elem_of_nil].
    by intros ->%list_elem_of_singleton.
  - run_handler; by intros ?%elem_of_nil.
Qed.

Lemma other_handlers_spawn_nothing K m_config env ev s :
  (∀ k, ev ≠ EvKeyPress k) → (∀ b, ev ≠ EvButtonPress b) →
  spawned (calls_of (handle_event K m_config env ev) s) = [].
Proof.
  intros Hk Hb. destruct ev as [k|b|b| |w|w|w|w| | ]; simpl;
    try (by destruct (Hk k)); try (by destruct (Hb b)).
  - unfold handle_buttonrelease. run_handler; reflexivity.
  - unfold handle_motionnotify. run_handler; reflexivity.
  - unfold handle_mapnotify, add_window, remap_client, class_actions.
    run_handler; reflexivity.
  - reflexivity.
  - unfold handle_expose. run_handler; reflexivity.
  - reflexivity.
  - reflexivity.
  - reflexivity.
Qed.

(** C10: a key press resolved to the RUN action spawns the fixed command line
    "exec /usr/bin/dmenu_run" (when fork makes the child) and nothing else,
    whatever the configured shell is; and over all events, a program is
    spawned only by such a key press, with that fixed command line, or by a
    button press on the launch path, with "exec " followed by the configured
    shell. *)
Theorem run_key_spawns_dmenu_run (K : Common) (m_config : WMConfig)
    (env : Env) (s : XEvents) :
  (∀ ev, hotkey m_config ≠ HK_OTHER →
         keypress_action K m_config env ev = RUN →
         exec (handle_keypress K m_config env ev) s
         = (s, if fork_ok env
               then [Spawn_sh "exec /usr/bin/dmenu_run"] else []))
  ∧ (∀ ev cmd,
        cmd ∈ spawned (calls_of (handle_event K m_config env ev) s) →
        (∃ k, ev = EvKeyPress k
              ∧ keypress_action K m_config env k = RUN
              ∧ cmd = "exec /usr/bin/dmenu_run")
        ∨ (∃ b, ev = EvButtonPress b
                ∧ xbutton_button b = LAUNCH_BUTTON K
                ∧ xbutton_state b = ACTION_MASK K
                ∧ cmd = String.append "exec " (shell m_config))).
Proof.
  split.
  - intros ev Hhot Haction. unfold handle_keypress, keypress_client.
    rewrite Haction.
    destruct (hotkey m_config); [| |done]; by destruct (fork_ok env).
  - intros ev cmd Hin.
    destruct ev as [k|b|b| |w|w|w|w| | ];
      try (rewrite other_handlers_spawn_nothing in Hin by done;
           by apply elem_of_nil in Hin).
    + left. exists k. apply keypress_spawned in Hin as [-> Hrun]. done.
    + right. exists b. apply buttonpress_spawned in Hin as (-> & Hb & Hs).
      done.
Qed.

Lemma run_key_spawns_dmenu_run_witness :
  let K := mkCommon 64 4 1 3 1 0 10 11 1 2 4 8 16 32 in
  let cfg := mkConfig "xterm" HK_FOCUS {[ (100%N, false) := RUN ]} ∅
               [] true 20 in
  let env := mkEnv (fun _ => false) (fun _ => UserDesktop 0) 0%N
                   (fun _ => mkBox 0 0 400 200) 0%N 0%N (fun k => k)
                   (fun _ => mkAttrs 10 20 30 40 false) (fun _ => None)
                   (fun _ => "") (fun _ => 0%N) (0, 0) (fun _ => "") []
                   (fun _ _ => (0, 0)) true in
  let s := mkXEvents XModel_init false in
  exec (handle_keypress K cfg env (mkXKey 1 0 0 100)) s
  = (s, [Spawn_sh "exec /usr/bin/dmenu_run"]).
Proof.
  intros K cfg env s.
  apply (proj1 (run_key_spawns_dmenu_run K cfg env s) (mkXKey 1 0 0 100)).
  - discriminate.
  - vm_compute. reflexivity.
Defined.

(** ** Relative moves *)


(** C8: the relative move is skipped when the window's x-coordinate already
    equals both targets.  A new visible window at (100, 50) whose class has a
    relative Y move of one half on a screen 200 high is registered at
    (100, 50) and made floating, and no relocation follows, although the
    rule's target y is 100. *)
Theorem relative_y_move_not_applied :
  let K := mkCommon 64 4 1 3 1 0 10 11 1 2 4 8 16 32 in
  let cfg := mkConfig "xterm" HK_MOUSE ∅
               {[ "Dialog" := mkClassActions 32 DIR_TOP 5 0 (1#2) ]}
               [] true 20 in
  let env := mkEnv (fun _ => false) (fun _ => UserDesktop 0) 0%N
                   (fun _ => mkBox 0 0 400 200) 0%N 0%N (fun k => k)
                   (fun _ => mkAttrs 100 50 30 40 false) (fun _ => None)
                   (fun _ => "Dialog") (fun _ => 0%N) (0, 0) (fun _ => "") []
                   (fun _ _ => (0, 0)) true in
  let s := mkXEvents XModel_init false in
  has_flag 32 (ACT_MOVE_Y K) = true
  ∧ scaled (box_height (get_screen env 9%N)) (1#2) = 100
  ∧ attr_y (get_attributes env 9%N) = 50
  ∧ exec (handle_mapnotify K cfg env 9%N) s
    = (s, [CM_add_client 9 IS_VISIBLE (100, 50) (30, 40) true;
           CM_change_mode 9 CPS_FLOATING]).
Proof. vm_compute. repeat split; reflexivity. Qed.

(** * Further properties of the XModel *)

Lemma map_subscript_lookup (m : gmap N (option Icon)) (key w : Window) :
  default None (snd (map_subscript m key) !! w) = default None (m !! w).
Proof.
  unfold map_subscript. destruct (m !! key) eqn:E; simpl; [done|].
  destruct (decide (key = w)) as [->|Hne].
  - by rewrite lookup_insert_eq, E.
  - by rewrite lookup_insert_ne.
Qed.

Lemma map_subscript_dom (m : gmap N (option Icon)) (key : Window) :
  dom (snd (map_subscript m key)) = {[key]} ∪ dom m.
Proof.
  unfold map_subscript. destruct (m !! key) eqn:E; simpl.
  - symmetry. apply subseteq_union_1_L, singleton_subseteq_l, elem_of_dom.
    eauto.
  - by rewrite dom_insert_L.
Qed.

Lemma find_icon_from_client_fst s w :
  fst (find_icon_from_client w s) = default None (m_clients_to_icons s !! w).
Proof.
  unfold find_icon_from_client.
  rewrite <- map_subscript_fst. by destruct (map_subscript _ _).
Qed.

Lemma find_icon_from_icon_window_fst s w :
  fst (find_icon_from_icon_window w s)
  = default None (m_icon_windows_to_icons s !! w).
Proof.
  unfold find_icon_from_icon_window.
  rewrite <- map_subscript_fst. by destruct (map_subscript _ _).
Qed.

Lemma find_icon_from_client_snd s w :
  snd (find_icon_from_client w s)
  = mkXModel (snd (map_subscript (m_clients_to_icons s) w))
             (m_icon_windows_to_icons s) (m_moveresize s) (m_pointer s).
Proof. unfold find_icon_from_client. by destruct (map_subscript _ _). Qed.

Lemma find_icon_from_icon_window_snd s w :
  snd (find_icon_from_icon_window w s)
  = mkXModel (m_clients_to_icons s)
             (snd (map_subscript (m_icon_windows_to_icons s) w))
             (m_moveresize s) (m_pointer s).
Proof. unfold find_icon_from_icon_window. by destruct (map_subscript _ _). Qed.

(** X1: a lookup binds the window it is asked about to the null pointer when
    the window is unbound, but this is invisible to every later lookup: after
    either lookup, both lookups return for every window what they returned
    before, and the session is as it was. *)
Theorem lookups_do_not_disturb_lookups (s : XModel) (w w' : Window) :
  let s1 := snd (find_icon_from_client w s) in
  let s2 := snd (find_icon_from_icon_window w s) in
  fst (find_icon_from_client w' s1) = fst (find_icon_from_client w' s)
  ∧ fst (find_icon_from_icon_window w' s1)
    = fst (find_icon_from_icon_window w' s)
  ∧ fst (find_icon_from_client w' s2) = fst (find_icon_from_client w' s)
  ∧ fst (find_icon_from_icon_window w' s2)
    = fst (find_icon_from_icon_window w' s)
  ∧ m_moveresize s1 = m_moveresize s
  ∧ m_moveresize s2 = m_moveresize s.
Proof.
  simpl.
  rewrite !find_icon_from_client_fst, !find_icon_from_icon_window_fst,
    find_icon_from_client_snd, find_icon_from_icon_window_snd.
  simpl. by rewrite !map_subscript_lookup.
Qed.

(** X2: every window a lookup is asked about becomes a key of the table that
    was searched, and no other key is added: the tables grow with the windows
    probed, whether or not an icon is found. *)
Theorem lookup_records_the_window (s : XModel) (w : Window) :
  dom (m_clients_to_icons (snd (find_icon_from_client w s)))
  = {[w]} ∪ dom (m_clients_to_icons s)
  ∧ dom (m_icon_windows_to_icons (snd (find_icon_from_client w s)))
    = dom (m_icon_windows_to_icons s)
  ∧ dom (m_icon_windows_to_icons (snd (find_icon_from_icon_window w s)))
    = {[w]} ∪ dom (m_icon_windows_to_icons s)
  ∧ dom (m_clients_to_icons (snd (find_icon_from_icon_window w s)))
    = dom (m_clients_to_icons s).
Proof.
  rewrite find_icon_from_client_snd, find_icon_from_icon_window_snd. simpl.
  by rewrite !map_subscript_dom.
Qed.

(** X3: registering an icon whose two keys are unbound and unregistering it
    again gives back the model exactly as it was. *)
Theorem unregister_undoes_register (s : XModel) (i : Icon) :
  m_clients_to_icons s !! Icon_client i = None →
  m_icon_windows_to_icons s !! Icon_icon i = None →
  unregister_icon i (register_icon i s) = s.
Proof.
  intros Hc Hi. unfold unregister_icon, register_icon. simpl.
  rewrite !delete_insert_eq, !delete_id by done.
  by destruct s.
Qed.

Lemma unregister_undoes_register_witness :
  let s := register_icon (mkIcon 1 10 0) XModel_init in
  unregister_icon (mkIcon 2 20 0) (register_icon (mkIcon 2 20 0) s) = s.
Proof.
  intros s.
  apply (unregister_undoes_register s (mkIcon 2 20 0));
    vm_compute; reflexivity.
Defined.

(** X4: registering or unregistering an icon changes the lookups of its own
    two keys only: a client window other than the icon's client, and an icon
    window other than the icon's window, are looked up as before. *)
Theorem icon_calls_leave_other_keys (s : XModel) (i : Icon) (w : Window) :
  (w ≠ Icon_client i →
     fst (find_icon_from_client w (register_icon i s))
     = fst (find_icon_from_client w s)
     ∧ fst (find_icon_from_client w (unregister_icon i s))
       = fst (find_icon_from_client w s))
  ∧ (w ≠ Icon_icon i →
     fst (find_icon_from_icon_window w (register_icon i s))
     = fst (find_icon_from_icon_window w s)
     ∧ fst (find_icon_from_icon_window w (unregister_icon i s))
       = fst (find_icon_from_icon_window w s)).
Proof.
  rewrite !find_icon_from_client_fst, !find_icon_from_icon_window_fst. simpl.
  split; intros Hne; by rewrite lookup_insert_ne, lookup_delete_ne.
Qed.

Lemma icon_calls_leave_other_keys_witness :
  let s := register_icon (mkIcon 1 10 0) XModel_init in
  fst (find_icon_from_client 1 (unregister_icon (mkIcon 2 20 0) s))
  = Some (mkIcon 1 10 0)
  ∧ fst (find_icon_from_icon_window 10 (register_icon (mkIcon 2 20 0) s))
    = Some (mkIcon 1 10 0).
Proof.
  intros s.
  destruct (icon_calls_leave_other_keys s (mkIcon 2 20 0) 1%N) as [H1 _].
  destruct (icon_calls_leave_other_keys s (mkIcon 2 20 0) 10%N) as [_ H2].
  destruct (H1 ltac:(discriminate)) as [_ H1'].
  destruct (H2 ltac:(discriminate)) as [H2' _].
  split.
  - rewrite H1'. reflexivity.
  - rewrite H2'. reflexivity.
Defined.

(** X5: with no session active, [enter_move] and [enter_resize] record
    exactly the client, the placeholder and the kind they are given, and
    [exit_move_resize] then gives back the model exactly as it was. *)
Theorem enter_then_exit_round_trip (s : XModel) (c : EnterCall) :
  m_moveresize s = None →
  m_moveresize (run_enter_call c s) = Some (requested_session c)
  ∧ get_move_resize_client (run_enter_call c s)
    = mr_client (requested_session c)
  ∧ get_move_resize_placeholder (run_enter_call c s)
    = mr_placeholder (requested_session c)
  ∧ get_move_resize_state (run_enter_call c s)
    = mr_state (requested_session c)
  ∧ exit_move_resize (run_enter_call c s) = s.
Proof.
  intros Hnone.
  destruct c; simpl;
    unfold enter_move, enter_resize, exit_move_resize,
      get_move_resize_client, get_move_resize_placeholder,
      get_move_resize_state;
    rewrite Hnone; simpl; rewrite <- Hnone; by destruct s.
Qed.

Lemma enter_then_exit_round_trip_witness :
  get_move_resize_client (enter_resize 8 100 XModel_init) = 8%N
  ∧ get_move_resize_state (enter_resize 8 100 XModel_init) = MR_RESIZE
  ∧ exit_move_resize (enter_resize 8 100 XModel_init) = XModel_init.
Proof.
  destruct (enter_then_exit_round_trip XModel_init (CallEnterResize 8 100)
              eq_refl) as (_ & H1 & _ & H2 & H3).
  exact (conj H1 (conj H2 H3)).
Defined.

(** X6: [exit_move_resize] always leaves the model without a session: the
    three getters return [None], [None] and [MR_INVALID]; calling it again
    changes nothing; and the next [enter_move] or [enter_resize] always takes
    effect. *)
Theorem exit_always_clears (s : XModel) (c : EnterCall) :
  let s' := exit_move_resize s in
  get_move_resize_client s' = NoneWin
  ∧ get_move_resize_placeholder s' = NoneWin
  ∧ get_move_resize_state s' = MR_INVALID
  ∧ exit_move_resize s' = s'
  ∧ m_moveresize (run_enter_call c s') = Some (requested_session c).
Proof.
  simpl.
  assert (m_moveresize (exit_move_resize s) = None) as Hnone.
  { unfold exit_move_resize. by destruct (m_moveresize s) eqn:E. }
  unfold get_move_resize_client, get_move_resize_placeholder,
    get_move_resize_state.
  rewrite Hnone. repeat split.
  - unfold exit_move_resize at 1. by rewrite Hnone.
  - destruct c; simpl; unfold enter_move, enter_resize; by rewrite Hnone.
Qed.

Lemma run_enter_call_active s mr c :
  m_moveresize s = Some mr → run_enter_call c s = s.
Proof.
  destruct c; simpl; eauto using enter_move_active, enter_resize_active.
Qed.

(** X7: first come, first served, over any sequence: starting with no session,
    after any non-empty sequence of [enter_move]/[enter_resize] requests the
    session is the one the first request asked for. *)
Theorem first_request_wins (s : XModel) (c : EnterCall) (cs : list EnterCall) :
  m_moveresize s = None →
  m_moveresize (foldl (fun s c => run_enter_call c s) s (c :: cs))
  = Some (requested_session c).
Proof.
  intros Hnone. simpl.
  assert (m_moveresize (run_enter_call c s) = Some (requested_session c))
    as Hfirst.
  { destruct c; simpl; unfold enter_move, enter_resize; by rewrite Hnone. }
  revert Hfirst. generalize (run_enter_call c s) as s1.
  induction cs as [|c' cs IH]; intros s1 Hs1; simpl; [done|].
  apply IH. by rewrite (run_enter_call_active s1 _ c' Hs1).
Qed.

Lemma first_request_wins_witness :
  m_moveresize
    (foldl (fun s c => run_enter_call c s) XModel_init
       [CallEnterMove 7 99; CallEnterResize 8 100; CallEnterMove 9 101])
  = Some (mkMoveResize 7 99 MR_MOVE).
Proof.
  apply (first_request_wins XModel_init (CallEnterMove 7 99)
           [CallEnterResize 8 100; CallEnterMove 9 101]).
  reflexivity.
Defined.

(** X8: the icon tables and the session do not touch each other: registering,
    unregistering and looking up icons leave the session and the pointer
    sample as they are, and entering or leaving a session leaves both icon
    tables as they are. *)
Theorem icons_and_session_are_separate (s : XModel) :
  (∀ c : IconCall,
      m_moveresize (run_icon_call c s) = m_moveresize s
      ∧ m_pointer (run_icon_call c s) = m_pointer s)
  ∧ (∀ c : EnterCall,
      m_clients_to_icons (run_enter_call c s) = m_clients_to_icons s
      ∧ m_icon_windows_to_icons (run_enter_call c s)
        = m_icon_windows_to_icons s)
  ∧ m_clients_to_icons (exit_move_resize s) = m_clients_to_icons s
  ∧ m_icon_windows_to_icons (exit_move_resize s) = m_icon_windows_to_icons s.
Proof.
  split; [|split].
  - intros [i|i|w|w]; simpl; try done.
    + by rewrite find_icon_from_client_snd.
    + by rewrite find_icon_from_icon_window_snd.
  - intros [c p|c p]; simpl; unfold enter_move, enter_resize;
      by destruct (m_moveresize s).
  - unfold exit_move_resize. by destruct (m_moveresize s).
Qed.

(** * Further properties of the dispatcher *)

(** ** What each handler does to the dispatcher's own state *)

Lemma handle_keypress_state K m_config env ev s :
  state_of (handle_keypress K m_config env ev) s = s
  ∨ (state_of (handle_keypress K m_config env ev) s
     = mkXEvents (m_xmodel s) true
     ∧ hotkey m_config ≠ HK_OTHER
     ∧ keypress_action K m_config env ev = EXIT_WM).
Proof.
  unfold handle_keypress, keypress_client.
  destruct (hotkey m_config) eqn:Hhot; [| |by left].
  all: destruct (keypress_action K m_config env ev) eqn:Haction;
    unfold client_action; run_handler; auto.
Qed.

Lemma handle_buttonpress_state K m_config env ev s :
  state_of (handle_buttonpress K m_config env ev) s
  = mkXEvents
      (snd (find_icon_from_icon_window (xbutton_window ev) (m_xmodel s)))
      (m_done s).
Proof.
  unfold handle_buttonpress, state_of, exec, bind, xmodel_op.
  destruct (find_icon_from_icon_window _ _) as [icon xm]. simpl.
  run_handler; reflexivity.
Qed.

Lemma handle_buttonrelease_state env ev s :
  state_of (handle_buttonrelease env ev) s = s.
Proof. unfold handle_buttonrelease. run_handler; reflexivity. Qed.

Lemma handle_motionnotify_state env s :
  m_done (state_of (handle_motionnotify env) s) = m_done s
  ∧ m_clients_to_icons (m_xmodel (state_of (handle_motionnotify env) s))
    = m_clients_to_icons (m_xmodel s)
  ∧ m_icon_windows_to_icons (m_xmodel (state_of (handle_motionnotify env) s))
    = m_icon_windows_to_icons (m_xmodel s)
  ∧ m_moveresize (m_xmodel (state_of (handle_motionnotify env) s))
    = m_moveresize (m_xmodel s).
Proof.
  unfold handle_motionnotify.
  destruct (get_pointer_location env) as [ptr_x ptr_y].
  run_handler; done.
Qed.

Lemma handle_expose_state m_config env w s :
  state_of (handle_expose m_config env w) s
  = mkXEvents (snd (find_icon_from_icon_window w (m_xmodel s))) (m_done s).
Proof.
  unfold handle_expose, state_of, exec, bind, xmodel_op.
  destruct (find_icon_from_icon_window _ _) as [icon xm]. simpl.
  run_handler; reflexivity.
Qed.

Lemma remap_client_exec env window s :
  exec (remap_client env window) s
  = match find_desktop env window with
    | UserDesktop _ => (s, [CM_client_reset_desktop window])
    | AllDesktops => (s, [])
    | IconDesktop =>
        (s, [CM_deiconify window; CM_client_reset_desktop window])
    | MovingDesktop =>
        let attr :=
          get_attributes env (get_move_resize_placeholder (m_xmodel s)) in
        (close_session s,
         [CM_stop_moving window (attr_x attr, attr_y attr);
          CM_client_reset_desktop window])
    | ResizingDesktop =>
        let attr :=
          get_attributes env (get_move_resize_placeholder (m_xmodel s)) in
        (close_session s,
         [CM_stop_resizing window (attr_width attr, attr_height attr);
          CM_client_reset_desktop window])
    end.
Proof.
  unfold remap_client, exec, bind, xmodel_get, xmodel_set, call, skip, ret,
    close_session.
  destruct (find_desktop env window); simpl; try reflexivity;
    by rewrite XEvents_eta.
Qed.

Lemma add_window_state K m_config env window s :
  state_of (add_window K m_config env window) s
  = if is_client env window
       && (is_moving_desktop (find_desktop env window)
           || is_resizing_desktop (find_desktop env window))
    then close_session s else s.
Proof.
  unfold state_of. destruct (is_client env window) eqn:Hclient.
  - unfold add_window. rewrite Hclient, remap_client_exec.
    by destruct (find_desktop env window).
  - destruct (attr_override_redirect (get_attributes env window)) eqn:Hover.
    + unfold add_window. by rewrite Hclient, Hover.
    + by rewrite add_window_new.
Qed.

Lemma lookups_after_icon_window_lookup xm w0 w :
  fst (find_icon_from_client w (snd (find_icon_from_icon_window w0 xm)))
  = fst (find_icon_from_client w xm)
  ∧ fst (find_icon_from_icon_window w
           (snd (find_icon_from_icon_window w0 xm)))
    = fst (find_icon_from_icon_window w xm).
Proof.
  rewrite !find_icon_from_client_fst, !find_icon_from_icon_window_fst,
    find_icon_from_icon_window_snd.
  simpl. by rewrite map_subscript_lookup.
Qed.

Lemma exit_move_resize_tables xm :
  m_clients_to_icons (exit_move_resize xm) = m_clients_to_icons xm
  ∧ m_icon_windows_to_icons (exit_move_resize xm)
    = m_icon_windows_to_icons xm.
Proof. unfold exit_move_resize. by destruct (m_moveresize xm). Qed.

(** X9: no event makes the dispatcher register or unregister an icon or start
    a session.  After any event both icon lookups return for every window
    what they returned before, and the session is either the one before or
    none; it is dropped only by a map-notify of a known client that is on the
    moving or resizing desktop. *)
Theorem dispatcher_keeps_icons_and_starts_no_session (K : Common)
    (m_config : WMConfig) (env : Env) (ev : XEvent) (s : XEvents) :
  let s' := state_of (handle_event K m_config env ev) s in
  (∀ w, fst (find_icon_from_client w (m_xmodel s'))
        = fst (find_icon_from_client w (m_xmodel s))
        ∧ fst (find_icon_from_icon_window w (m_xmodel s'))
          = fst (find_icon_from_icon_window w (m_xmodel s)))
  ∧ (m_moveresize (m_xmodel s') = m_moveresize (m_xmodel s)
     ∨ (m_moveresize (m_xmodel s') = None
        ∧ ∃ w, ev = EvMapNotify w
               ∧ is_client env w = true
               ∧ is_moving_desktop (find_desktop env w)
                 || is_resizing_desktop (find_desktop env w) = true)).
Proof.
  simpl. destruct ev as [k|b|b| |w0|w0|w0|w0| | ]; simpl.
  - destruct (handle_keypress_state K m_config env k s) as [->|(-> & _)];
      simpl; split; auto.
  - rewrite handle_buttonpress_state. simpl.
    split; [|left; by rewrite find_icon_from_icon_window_snd].
    intros w. by apply lookups_after_icon_window_lookup.
  - rewrite handle_buttonrelease_state. auto.
  - destruct (handle_motionnotify_state env s) as (_ & Hc & Hi & Hmr).
    split; [|by left]. intros w.
    by rewrite !find_icon_from_client_fst, !find_icon_from_icon_window_fst,
      Hc, Hi.
  - unfold handle_mapnotify. rewrite add_window_state.
    destruct (is_client env w0 && _) eqn:Hcond; [|auto].
    apply andb_prop in Hcond as [Hclient Hdesk].
    split.
    + intros w.
      rewrite !find_icon_from_client_fst, !find_icon_from_icon_window_fst.
      simpl.
      by rewrite (proj1 (exit_move_resize_tables _)),
        (proj2 (exit_move_resize_tables _)).
    + right. split; [|by exists w0]. simpl.
      unfold exit_move_resize. by destruct (m_moveresize (m_xmodel s)) eqn:E.
  - auto.
  - rewrite handle_expose_state. simpl.
    split; [|left; by rewrite find_icon_from_icon_window_snd].
    intros w. by apply lookups_after_icon_window_lookup.
  - auto.
  - auto.
  - auto.
Qed.

(** X10: the done flag is set by one thing only, a key press resolved to
    EXIT_WM in a valid hotkey mode, and nothing ever clears it; [step]
    returns whether the flag is still clear after the event. *)
Theorem done_only_by_exit_key (K : Common) (m_config : WMConfig) (env : Env)
    (ev : XEvent) (s : XEvents) :
  let s' := state_of (handle_event K m_config env ev) s in
  (m_done s' = true
   ↔ m_done s = true
     ∨ ∃ k, ev = EvKeyPress k
            ∧ hotkey m_config ≠ HK_OTHER
            ∧ keypress_action K m_config env k = EXIT_WM)
  ∧ step K m_config env ev s
    = (negb (m_done s'), s', calls_of (handle_event K m_config env ev) s).
Proof.
  simpl. split.
  - destruct ev as [k|b|b| |w0|w0|w0|w0| | ]; simpl.
    + destruct (handle_keypress_state K m_config env k s)
        as [Hst|(Hst & Hhot & Hexit)]; rewrite Hst; simpl.
      * split; [by left|]. intros [H|(k' & Heq & Hhot & Hexit)]; [done|].
        injection Heq as <-. rewrite <- Hst.
        unfold state_of, handle_keypress, keypress_client.
        rewrite Hexit. by destruct (hotkey m_config).
      * split; [|done]. intros _. right. by exists k.
    + rewrite handle_buttonpress_state. simpl.
      split; [by left|]. by intros [H|(k & Heq & _)].
    + rewrite handle_buttonrelease_state.
      split; [by left|]. by intros [H|(k & Heq & _)].
    + destruct (handle_motionnotify_state env s) as (-> & _).
      split; [by left|]. by intros [H|(k & Heq & _)].
    + unfold handle_mapnotify. rewrite add_window_state.
      destruct (_ && _); simpl;
        (split; [by left|]); by intros [H|(k & Heq & _)].
    + split; [by left|]. by intros [H|(k & Heq & _)].
    + rewrite handle_expose_state. simpl.
      split; [by left|]. by intros [H|(k & Heq & _)].
    + split; [by left|]. by intros [H|(k & Heq & _)].
    + split; [by left|]. by intros [H|(k & Heq & _)].
    + split; [by left|]. by intros [H|(k & Heq & _)].
  - unfold step, bind, state_of, calls_of, exec.
    destruct (handle_event K m_config env ev s) as [[[] s1] l]. simpl.
    by rewrite app_nil_r.
Qed.

(** X11: a key press does nothing at all when the hotkey mode is neither
    pointer-based nor focus-based, whatever the action; and an action that
    needs a client does nothing when the window it is aimed at is not a
    client. *)
Theorem keypress_without_target_is_ignored (K : Common) (m_config : WMConfig)
    (env : Env) (ev : XKeyEvent) (s : XEvents) :
  (hotkey m_config = HK_OTHER →
     exec (handle_keypress K m_config env ev) s = (s, []))
  ∧ (∀ client,
       keypress_client m_config env ev = Some client →
       is_client env client = false →
       is_global_action (keypress_action K m_config env ev) = false →
       exec (handle_keypress K m_config env ev) s = (s, [])).
Proof.
  split.
  - intros Hhot. unfold handle_keypress, keypress_client. by rewrite Hhot.
  - intros client Hclient Hnot Hglobal. unfold handle_keypress.
    rewrite Hclient.
    destruct (keypress_action K m_config env ev); try discriminate;
      by rewrite Hnot.
Qed.

Lemma keypress_without_target_is_ignored_witness :
  let env := sample_env (fun w => (w =? 7)%N) (UserDesktop 0)
               (mkAttrs 0 0 10 10 false) "" 0%N in
  let cfg h := mkConfig "xterm" h
                 {[ (100%N, false) := EXIT_WM; (101%N, false) := ICONIFY ]}
                 ∅ [] true 20 in
  let s := mkXEvents XModel_init false in
  exec (handle_keypress sample_K (cfg HK_OTHER) env (mkXKey 1 7 0 100)) s
  = (s, [])
  ∧ exec (handle_keypress sample_K (cfg HK_MOUSE) env (mkXKey 1 8 0 101)) s
    = (s, []).
Proof.
  intros env cfg s. split.
  - apply (proj1 (keypress_without_target_is_ignored sample_K (cfg HK_OTHER)
                    env (mkXKey 1 7 0 100) s)).
    reflexivity.
  - apply (proj2 (keypress_without_target_is_ignored sample_K (cfg HK_MOUSE)
                    env (mkXKey 1 8 0 101) s) 8%N);
      vm_compute; reflexivity.
Defined.

(** X12: a button press on a client whose window is not an icon's.  With any
    state other than the action mask it forces the focus onto the event's
    window and does nothing else.  With the action mask it never forces the
    focus: it starts a move of the subwindow when the button is the move
    button, a resize when it is the resize button, and does nothing for any
    other button. *)
Theorem buttonpress_on_client (K : Common) (m_config : WMConfig) (env : Env)
    (ev : XButtonEvent) (s : XEvents) :
  is_client env (xbutton_window ev) || is_client env (xbutton_subwindow ev)
  = true →
  fst (find_icon_from_icon_window (xbutton_window ev) (m_xmodel s)) = None →
  calls_of (handle_buttonpress K m_config env ev) s
  = if xbutton_state ev =? ACTION_MASK K
    then (if xbutton_button ev =? MOVE_BUTTON K
          then [CM_start_moving (xbutton_subwindow ev)] else [])
         ++ (if xbutton_button ev =? RESIZE_BUTTON K
             then [CM_start_resizing (xbutton_subwindow ev)] else [])
    else [CM_force_focus (xbutton_window ev)].
Proof.
  intros Hclient Hicon.
  unfold handle_buttonpress, calls_of, exec, bind, xmodel_op.
  destruct (find_icon_from_icon_window _ _) as [icon xm].
  simpl in Hicon. subst icon. rewrite Hclient. simpl.
  destruct (xbutton_state ev =? ACTION_MASK K);
    destruct (xbutton_button ev =? MOVE_BUTTON K);
    destruct (xbutton_button ev =? RESIZE_BUTTON K); reflexivity.
Qed.

Lemma buttonpress_on_client_witness :
  let env := sample_env (fun w => (w =? 7)%N) (UserDesktop 0)
               (mkAttrs 0 0 10 10 false) "" 0%N in
  let cfg := mkConfig "xterm" HK_MOUSE ∅ ∅ [] true 20 in
  let s := mkXEvents XModel_init false in
  calls_of (handle_buttonpress sample_K cfg env (mkXButton 1 7 64 3)) s
  = [CM_start_resizing 7]
  ∧ calls_of (handle_buttonpress sample_K cfg env (mkXButton 7 0 0 1)) s
    = [CM_force_focus 7].
Proof.
  intros env cfg s. split.
  - apply (buttonpress_on_client sample_K cfg env (mkXButton 1 7 64 3) s);
      reflexivity.
  - apply (buttonpress_on_client sample_K cfg env (mkXButton 7 0 0 1) s);
      reflexivity.
Defined.

Lemma class_actions_registrations K env window win_attr action s :
  registrations (calls_of (class_actions K env window win_attr action) s) = [].
Proof. unfold class_actions. run_handler; reflexivity. Qed.

Lemma registrations_app cs1 cs2 :
  registrations (cs1 ++ cs2) = registrations cs1 ++ registrations cs2.
Proof. unfold registrations. apply omap_app. Qed.

(** X13: the dispatcher registers a client only on a map-notify of a window
    that is not yet a client and does not carry [override_redirect], and then
    exactly once; no other event, and no map-notify of a known or unmanaged
    window, registers anything. *)
Theorem registers_only_new_manageable_windows (K : Common)
    (m_config : WMConfig) (env : Env) (ev : XEvent) (s : XEvents) :
  registrations (calls_of (handle_event K m_config env ev) s)
  = match ev with
    | EvMapNotify w =>
        if is_client env w || attr_override_redirect (get_attributes env w)
        then [] else [w]
    | _ => []
    end.
Proof.
  destruct ev as [k|b|b| |w|w|w|w| | ]; simpl; try reflexivity.
  - unfold handle_keypress.
    destruct (keypress_client m_config env k); [|done].
    destruct (keypress_action K m_config env k);
      unfold client_action; run_handler; reflexivity.
  - unfold handle_buttonpress. run_handler; reflexivity.
  - unfold handle_buttonrelease. run_handler; reflexivity.
  - unfold handle_motionnotify. run_handler; reflexivity.
  - unfold handle_mapnotify, calls_of.
    destruct (is_client env w) eqn:Hclient; simpl.
    + unfold add_window. rewrite Hclient, remap_client_exec.
      by destruct (find_desktop env w).
    + destruct (attr_override_redirect (get_attributes env w)) eqn:Hover.
      * unfold add_window. by rewrite Hclient, Hover.
      * rewrite add_window_new by done. simpl.
        rewrite registrations_app. unfold dialog_calls.
        destruct (_ =? _)%N; simpl;
          destruct (classactions m_config !! get_class env w);
          destruct (initial_state_of (get_wm_hints env w));
          by rewrite ?class_actions_registrations.
  - unfold handle_expose. run_handler; reflexivity.
Qed.

(** X14: a map-notify of a known client that is on the moving desktop ends
    the session in the dispatcher itself, hands the position of the session's
    placeholder (read before the session is dropped) to [stop_moving] for
    that client, and then resets its desktop; on the resizing desktop it does
    the same with the placeholder's size and [stop_resizing]. *)
Theorem mapnotify_interrupts_session (K : Common) (m_config : WMConfig)
    (env : Env) (window : Window) (s : XEvents) :
  is_client env window = true →
  let attr := get_attributes env (get_move_resize_placeholder (m_xmodel s)) in
  (find_desktop env window = MovingDesktop →
     exec (handle_mapnotify K m_config env window) s
     = (mkXEvents (exit_move_resize (m_xmodel s)) (m_done s),
        [CM_stop_moving window (attr_x attr, attr_y attr);
         CM_client_reset_desktop window]))
  ∧ (find_desktop env window = ResizingDesktop →
     exec (handle_mapnotify K m_config env window) s
     = (mkXEvents (exit_move_resize (m_xmodel s)) (m_done s),
        [CM_stop_resizing window (attr_width attr, attr_height attr);
         CM_client_reset_desktop window])).
Proof.
  intros Hclient attr. unfold handle_mapnotify, add_window.
  rewrite Hclient, remap_client_exec.
  split; intros ->; reflexivity.
Qed.

Lemma mapnotify_interrupts_session_witness :
  let env := sample_env (fun _ => true) MovingDesktop
               (mkAttrs 30 40 100 100 false) "" 0%N in
  let cfg := mkConfig "xterm" HK_MOUSE ∅ ∅ [] true 20 in
  let s := mkXEvents (enter_move 7 99 XModel_init) false in
  exec (handle_mapnotify sample_K cfg env 7%N) s
  = (mkXEvents XModel_init false,
     [CM_stop_moving 7 (30, 40); CM_client_reset_desktop 7]).
Proof.
  intros env cfg s.
  exact (proj1 (mapnotify_interrupts_session sample_K cfg env 7%N s eq_refl)
           eq_refl).
Defined.


Lemma class_actions_layers K env window win_attr action s :
  layers_set (calls_of (class_actions K env window win_attr action) s)
  = if has_flag (ca_actions action) (ACT_SETLAYER K)
    then [ca_layer action] else [].
Proof. unfold class_actions. run_handler; reflexivity. Qed.

Lemma class_actions_modes K env window win_attr action s :
  modes_set (calls_of (class_actions K env window win_attr action) s)
  = (if has_flag (ca_actions action) (ACT_MAXIMIZE K) then [CPS_MAX] else [])
    ++ (if has_flag (ca_actions action) (ACT_SNAP K)
        then [snap_mode (ca_snap action)] else [])
    ++ (if has_flag (ca_actions action) (ACT_MOVE_X K)
           || has_flag (ca_actions action) (ACT_MOVE_Y K)
        then [CPS_FLOATING] else []).
Proof.
  unfold class_actions.
  destruct (has_flag (ca_actions action) (ACT_MAXIMIZE K));
    destruct (has_flag (ca_actions action) (ACT_SNAP K));
    destruct (has_flag (ca_actions action) (ACT_MOVE_X K));
    destruct (has_flag (ca_actions action) (ACT_MOVE_Y K));
    run_handler; reflexivity.
Qed.

Lemma add_window_visible_with_rule K m_config env window s action :
  is_client env window = false →
  attr_override_redirect (get_attributes env window) = false →
  classactions m_config !! get_class env window = Some action →
  initial_state_of (get_wm_hints env window) = IS_VISIBLE →
  calls_of (add_window K m_config env window) s
  = add_client_call m_config env window
    :: dialog_calls K env window
    ++ calls_of (class_actions K env window (get_attributes env window)
                   action) s.
Proof.
  intros Hclient Hover Haction Hvisible. unfold calls_of at 1.
  rewrite add_window_new by done. by rewrite Haction, Hvisible.
Qed.

(** X16: for a new visible window whose class has a rule set, a layer set by
    the rule is the last layer set, also for a transient window that was
    first put on the dialog layer; and with a relative move in the rule the
    last placement mode asked for is floating, also after a maximize or a
    snap of the same rule. *)
Theorem class_rule_has_the_last_word (K : Common) (m_config : WMConfig)
    (env : Env) (window : Window) (s : XEvents) (action : ClassActions) :
  is_client env window = false →
  attr_override_redirect (get_attributes env window) = false →
  classactions m_config !! get_class env window = Some action →
  initial_state_of (get_wm_hints env window) = IS_VISIBLE →
  let cs := calls_of (handle_mapnotify K m_config env window) s in
  (has_flag (ca_actions action) (ACT_SETLAYER K) = true →
     last (layers_set cs) = Some (ca_layer action))
  ∧ (has_flag (ca_actions action) (ACT_MOVE_X K)
     || has_flag (ca_actions action) (ACT_MOVE_Y K) = true →
     last (modes_set cs) = Some CPS_FLOATING).
Proof.
  intros Hclient Hover Haction Hvisible cs. subst cs.
  unfold handle_mapnotify.
  rewrite (add_window_visible_with_rule K m_config env window s action)
    by done.
  unfold add_client_call, layers_set, modes_set. simpl.
  rewrite !omap_app.
  fold (layers_set (calls_of (class_actions K env window
                                (get_attributes env window) action) s)).
  fold (modes_set (calls_of (class_actions K env window
                               (get_attributes env window) action) s)).
  rewrite class_actions_layers, class_actions_modes.
  split; intros ->.
  - by rewrite last_snoc.
  - by rewrite !app_assoc, last_snoc.
Qed.

Lemma class_rule_has_the_last_word_witness :
  let env := sample_env (fun _ => false) (UserDesktop 0)
               (mkAttrs 10 20 30 40 false) "Dialog" 5%N in
  let rule := mkClassActions 63 DIR_LEFT 5 (1#4) (1#2) in
  let cfg := mkConfig "xterm" HK_MOUSE ∅ {[ "Dialog" := rule ]} [] true 20 in
  let s := mkXEvents XModel_init false in
  let cs := calls_of (handle_mapnotify sample_K cfg env 42%N) s in
  last (layers_set cs) = Some 5 ∧ last (modes_set cs) = Some CPS_FLOATING.
Proof.
  intros env rule cfg s cs.
  destruct (class_rule_has_the_last_word sample_K cfg env 42%N s rule
              eq_refl eq_refl eq_refl eq_refl) as [H1 H2].
  split; [exact (H1 eq_refl) | exact (H2 eq_refl)].
Defined.



(** X18: a button press on a client, or on the window of an icon, never
    launches a program, whatever the button and the modifier state. *)
Theorem no_launch_on_clients_or_icons (K : Common) (m_config : WMConfig)
    (env : Env) (ev : XButtonEvent) (s : XEvents) :
  is_client env (xbutton_window ev) = true
  ∨ is_client env (xbutton_subwindow ev) = true
  ∨ is_Some (fst (find_icon_from_icon_window (xbutton_window ev)
                    (m_xmodel s))) →
  spawned (calls_of (handle_buttonpress K m_config env ev) s) = [].
Proof.
  intros Hon.
  unfold handle_buttonpress, calls_of, exec, bind, xmodel_op.
  destruct (find_icon_from_icon_window _ _) as [icon xm]. simpl in *.
  assert (negb (is_client env (xbutton_window ev)
                || is_client env (xbutton_subwindow ev)
                || bool_decide (is_Some icon)) = false) as ->.
  { apply negb_false_iff.
    destruct Hon as [->| [->|Hicon]]; [done| |].
    - by rewrite orb_true_r.
    - by rewrite bool_decide_eq_true_2, orb_true_r. }
  simpl. run_handler; reflexivity.
Qed.

Lemma no_launch_on_clients_or_icons_witness :
  let env := sample_env (fun w => (w =? 7)%N) (UserDesktop 0)
               (mkAttrs 0 0 10 10 false) "" 0%N in
  let cfg := mkConfig "xterm" HK_MOUSE ∅ ∅ [] true 20 in
  let s := mkXEvents XModel_init false in
  spawned (calls_of (handle_buttonpress sample_K cfg env
                       (mkXButton 1 7 64 1)) s) = [].
Proof.
  intros env cfg s.
  apply (no_launch_on_clients_or_icons sample_K cfg env (mkXButton 1 7 64 1) s).
  right. left. reflexivity.
Defined.

(** X19: an expose of a window that is not an icon's draws nothing.  For an
    icon the handler clears the icon's drawing context first and draws the
    client's icon name last, at the height of the icon; the name starts at
    x = 0 unless icons are shown and the client's hints carry an icon pixmap,
    in which case the pixmap is copied at the origin and the name starts at
    the pixmap's width. *)
Theorem expose_redraws_icons_only (m_config : WMConfig) (env : Env)
    (window : Window) (s : XEvents) :
  let found := fst (find_icon_from_icon_window window (m_xmodel s)) in
  (found = None → calls_of (handle_expose m_config env window) s = [])
  ∧ (∀ i, found = Some i →
       let pixmap :=
         if show_icons m_config
         then match get_wm_hints env (Icon_client i) with
              | Some hints =>
                  if has_flag (hints_flags hints) IconPixmapHint
                  then Some (hints_icon_pixmap hints) else None
              | None => None
              end
         else None in
       calls_of (handle_expose m_config env window) s
       = [GC_clear (Icon_gc i)]
         ++ match pixmap with
            | Some p => [GC_copy_pixmap (Icon_gc i) p 0 0]
            | None => []
            end
         ++ [GC_draw_string (Icon_gc i)
               match pixmap with
               | Some p => fst (copy_pixmap_size env (Icon_gc i) p)
               | None => 0
               end
               (icon_height m_config)
               (get_icon_name env (Icon_client i))]).
Proof.
  simpl.
  unfold handle_expose, calls_of, exec, bind, xmodel_op.
  destruct (find_icon_from_icon_window _ _) as [icon xm]. simpl.
  split.
  - by intros ->.
  - intros i ->. run_handler; reflexivity.
Qed.

Lemma expose_redraws_icons_only_witness :
  let env := sample_env (fun _ => true) IconDesktop
               (mkAttrs 0 0 10 10 false) "" 0%N in
  let cfg := mkConfig "xterm" HK_MOUSE ∅ ∅ [] true 20 in
  let s := mkXEvents (register_icon (mkIcon 7 70 1) XModel_init) false in
  calls_of (handle_expose cfg env 8%N) s = []
  ∧ calls_of (handle_expose cfg env 70%N) s
    = [GC_clear 1; GC_draw_string 1 0 20 "name"].
Proof.
  intros env cfg s. split.
  - apply (proj1 (expose_redraws_icons_only cfg env 8%N s)). reflexivity.
  - apply (proj2 (expose_redraws_icons_only cfg env 70%N s) (mkIcon 7 70 1)).
    reflexivity.
Defined.

(** X20: pointer motion never reaches the client registry.  Whatever the
    state, every call of the motion handler is the request for the latest
    motion event, a move of the session's placeholder during a move session,
    or a resize of the session's placeholder during a resize session; and
    without a placeholder the handler does nothing and takes no pointer
    sample. *)
Theorem motion_only_touches_the_placeholder (env : Env) (s : XEvents) :
  let placeholder := get_move_resize_placeholder (m_xmodel s) in
  (∀ c, c ∈ calls_of (handle_motionnotify env) s →
        c = XD_get_latest_event MotionNotify
        ∨ (∃ x y, c = XD_move_window placeholder x y
                  ∧ get_move_resize_state (m_xmodel s) = MR_MOVE)
        ∨ (∃ width height, c = XD_resize_window placeholder width height
                           ∧ get_move_resize_state (m_xmodel s) = MR_RESIZE))
  ∧ (placeholder = NoneWin → exec (handle_motionnotify env) s = (s, [])).
Proof.
  simpl. split; [|apply motionnotify_no_placeholder].
  intros c.
  unfold handle_motionnotify, calls_of, exec, bind, xmodel_get, xmodel_op,
    call, skip, ret.
  destruct (_ =? _)%N; [by intros ?%elem_of_nil|].
  destruct (get_pointer_location env) as [ptr_x ptr_y]. simpl.
  change (get_move_resize_state _)
    with (get_move_resize_state (m_xmodel s)).
  destruct (get_move_resize_state (m_xmodel s)); simpl.
  - intros ->%list_elem_of_singleton. by left.
  - intros [->| ->%list_elem_of_singleton]%elem_of_cons; [by left|].
    right. left. eauto.
  - intros [->| ->%list_elem_of_singleton]%elem_of_cons; [by left|].
    right. right. eauto.
Qed.

Lemma motion_only_touches_the_placeholder_witness :
  let env := sample_env (fun _ => true) (UserDesktop 0)
               (mkAttrs 0 0 10 10 false) "" 0%N in
  let s := mkXEvents XModel_init false in
  exec (handle_motionnotify env) s = (s, []).
Proof.
  intros env s.
  apply (proj2 (motion_only_touches_the_placeholder env s)). reflexivity.
Defined.

(** ** The constructor *)

Lemma add_hotkeys_actions a2b :
  add_hotkeys a2b actions
  = map (fun a => XD_add_hotkey (fst (binding_of a2b a))
                                (snd (binding_of a2b a)))
        (removelast actions).
Proof. reflexivity. Qed.

(** X21: the constructor leaves the dispatcher not done and grabs the move,
    resize and launch buttons and then one hotkey for each of 34 distinct
    actions, none for INVALID_ACTION; and every key action on which the key
    handler does anything at all is among the actions grabbed. *)
Theorem constructor_grabs_every_handled_action (K : Common)
    (action_to_binding : gmap nat (N * bool)) (xmodel : XModel) :
  let grabbed := removelast actions in
  XEvents_new K action_to_binding xmodel
  = (mkXEvents xmodel false,
     [XD_add_hotkey_mouse (MOVE_BUTTON K);
      XD_add_hotkey_mouse (RESIZE_BUTTON K);
      XD_add_hotkey_mouse (LAUNCH_BUTTON K)]
     ++ map (fun a => XD_add_hotkey (fst (binding_of action_to_binding a))
                                    (snd (binding_of action_to_binding a)))
            grabbed)
  ∧ NoDup grabbed
  ∧ length grabbed = 34%nat
  ∧ (INVALID_ACTION ∉ grabbed)
  ∧ (∀ m_config env ev s,
       exec (handle_keypress K m_config env ev) s ≠ (s, []) →
       keypress_action K m_config env ev ∈ grabbed).
Proof.
  simpl. split; [|split; [|split; [|split]]].
  - unfold XEvents_new. by rewrite add_hotkeys_actions.
  - apply (NoDup_fmap_1 action_index).
    apply (bool_decide_unpack _). vm_compute. exact I.
  - reflexivity.
  - apply (bool_decide_unpack _). vm_compute. exact I.
  - intros m_config env ev s Hdoes.
    destruct (keypress_action K m_config env ev) eqn:Haction;
      try (repeat constructor; fail).
    exfalso. apply Hdoes. unfold handle_keypress. rewrite Haction.
    destruct (keypress_client m_config env ev); [|done].
    by destruct (is_client env _).
Qed.

Lemma constructor_grabs_every_handled_action_witness :
  let env := sample_env (fun w => (w =? 7)%N) (UserDesktop 0)
               (mkAttrs 0 0 10 10 false) "" 0%N in
  let cfg := mkConfig "xterm" HK_MOUSE {[ (101%N, false) := ICONIFY ]}
               ∅ [] true 20 in
  keypress_action sample_K cfg env (mkXKey 1 7 0 101) ∈ removelast actions.
Proof.
  intros env cfg.
  apply (proj2 (proj2 (proj2 (proj2
           (constructor_grabs_every_handled_action sample_K ∅ XModel_init))))
           cfg env (mkXKey 1 7 0 101) (mkXEvents XModel_init false)).
  vm_compute. discriminate.
Defined.
